(** * GenAI cloud gateway: routing, fallback and cost estimation

    A shallow embedding of [app/cost_tracker.py], [app/config.py],
    [app/models.py] and [app/router.py], and the properties of the
    routing-and-fallback engine and of the cost estimator.

    Conventions of the embedding.
    - Python [str] is [string]; only lengths, equality, concatenation and
      slicing of strings are used by the code.
    - Python [int] is [Z].
    - Python [float] is an exact rational [Q]: [/], [*] and [+] are the
      exact operations that binary64 approximates, [int(x)] truncates
      towards zero and [round(x, 8)] rounds to the nearest multiple of
      1e-8, ties to even.  Infinities and NaN have no counterpart.
    - A Python callable that may raise returns an [Outcome]; code that
      also writes to the usage database runs in the monad [Run], which
      threads the [World] and keeps its writes when an exception
      propagates. *)

From Stdlib Require Import ZArith QArith Qround String Ascii List Bool Lia Lqa.
From Stdlib Require DecimalString.
Import ListNotations.

Local Open Scope Z_scope.
Local Open Scope string_scope.

(** ** Python numerics *)

Module Py.

(** [int(x)] for a float [x]: truncation towards zero. *)
Definition int_of_float (x : Q) : Z := Z.quot (Qnum x) (Z.pos (Qden x)).

(** [float(n)] for an int [n], also the implicit conversion in [n / 4]. *)
Definition float_of_int (n : Z) : Q := inject_Z n.

(** Nearest integer to [x], ties to the even neighbour. *)
Definition round_half_even (x : Q) : Z :=
  let n := Qfloor x in
  match ((x - inject_Z n) ?= (1 # 2))%Q with
  | Lt => n
  | Gt => n + 1
  | Eq => if Z.even n then n else n + 1
  end.

(** [round(x, ndigits)] for a float [x] and [0 <= ndigits]. *)
Definition round (x : Q) (ndigits : Z) : Q :=
  let scale := inject_Z (10 ^ ndigits) in
  Qred (inject_Z (round_half_even (x * scale)) / scale).

(** [len(s)] *)
Definition len (s : string) : Z := Z.of_nat (String.length s).

(** [s[:n]] for [0 <= n] *)
Definition slice_to (n : nat) (s : string) : string := substring 0 n s.

(** Truthiness of a [str]: [not s] holds of the empty string only. *)
Definition not_str (s : string) : bool :=
  match s with EmptyString => true | String _ _ => false end.

End Py.

(** ** [app/cost_tracker.py] *)

(** [est_tokens(text)] *)
Definition est_tokens (text : string) : Z :=
  if Py.not_str text then 0
  else
    Z.max 1
      (Py.int_of_float (Py.float_of_int (Py.len text) / Py.float_of_int 4)).

(** [@dataclass class CostEstimate] *)
Record CostEstimate : Type := mkCostEstimate {
  input_tokens_est : Z;
  output_tokens_est : Z;
  total_tokens_est : Z;
  cost_est_usd : Q
}.

(** [estimate_cost(provider, prompt, output_text, cost_per_1k_input_usd,
    cost_per_1k_output_usd)] *)
Definition estimate_cost (provider : string) (prompt output_text : string)
    (cost_per_1k_input_usd cost_per_1k_output_usd : Q) : CostEstimate :=
  let in_tok := est_tokens prompt in
  let out_tok := est_tokens output_text in
  let total := in_tok + out_tok in
  let cost :=
    ((Py.float_of_int in_tok / 1000) * cost_per_1k_input_usd
     + (Py.float_of_int out_tok / 1000) * cost_per_1k_output_usd)%Q in
  {| input_tokens_est := in_tok;
     output_tokens_est := out_tok;
     total_tokens_est := total;
     cost_est_usd := Py.round cost 8 |}.

(** *** The estimator as the specification words it *)

Module CostSpec.

(** [tokens = max(1, floor(char_count / 4))] for non-empty text, [0] for
    empty text. *)
Definition tokens (char_count : Z) : Z :=
  if Z.eqb char_count 0 then 0 else Z.max 1 (char_count / 4).

(** [(input_tokens/1000 x input_unit_price) +
     (output_tokens/1000 x output_unit_price)] *)
Definition raw_cost (input_tokens output_tokens : Z)
    (input_unit_price output_unit_price : Q) : Q :=
  ((input_tokens # 1000) * input_unit_price
   + (output_tokens # 1000) * output_unit_price)%Q.

(** Rounding to 8 decimal places: the nearest multiple of 1e-8. *)
Definition round8 (x : Q) : Q :=
  Qred (Py.round_half_even (x * 100000000) # 100000000).

Definition estimate (prompt output_text : string)
    (input_unit_price output_unit_price : Q) : CostEstimate :=
  let i := tokens (Py.len prompt) in
  let o := tokens (Py.len output_text) in
  {| input_tokens_est := i;
     output_tokens_est := o;
     total_tokens_est := i + o;
     cost_est_usd :=
       round8 (raw_cost i o input_unit_price output_unit_price) |}.

End CostSpec.

(** ** [app/config.py] *)

(** [@dataclass(frozen=True) class AzureConfig] *)
Record AzureConfig : Type := mkAzureConfig {
  endpoint : string;
  api_key : string;
  api_version : string;
  deployment_low_cost : string;
  deployment_high_quality : string;
  deployment_low_latency : string
}.

(** [@dataclass(frozen=True) class BedrockConfig] *)
Record BedrockConfig : Type := mkBedrockConfig {
  region : string;
  model_low_cost : string;
  model_high_quality : string;
  model_low_latency : string
}.

(** [@dataclass(frozen=True) class AppConfig] *)
Record AppConfig : Type := mkAppConfig {
  env : string;
  log_db_path : string;
  hard_timeout_s : Q;
  enable_request_logging : bool;
  azure_cost_per_1k_input_usd : Q;
  azure_cost_per_1k_output_usd : Q;
  bedrock_cost_per_1k_input_usd : Q;
  bedrock_cost_per_1k_output_usd : Q
}.

(** The [AppConfig] that [load_config()] builds when none of its
    environment variables is set: every field takes its default. *)
Definition default_app_config : AppConfig :=
  {| env := "dev";
     log_db_path := "./usage_logs.sqlite";
     hard_timeout_s := 20;
     enable_request_logging := true;
     azure_cost_per_1k_input_usd := 0.00015;
     azure_cost_per_1k_output_usd := 0.00060;
     bedrock_cost_per_1k_input_usd := 0.00025;
     bedrock_cost_per_1k_output_usd := 0.00125 |}.

(** ** [app/models.py] and [app/providers/base.py] *)

(** [class GenerateRequest(BaseModel)] *)
Record GenerateRequest : Type := mkGenerateRequest {
  prompt : string;
  task : string;
  priority : string;
  max_output_tokens : Z;
  temperature : Q;
  top_p : Q;
  provider_hint : option string;
  metadata : list (string * string)
}.

(** [Priority = Literal["low_cost", "low_latency", "high_quality"]] *)
Definition is_Priority (s : string) : bool :=
  (s =? "low_cost") || (s =? "low_latency") || (s =? "high_quality").

(** [Optional[Literal["azure", "bedrock"]]], the type of [provider_hint] *)
Definition is_provider_hint (h : option string) : bool :=
  match h with
  | None => true
  | Some s => (s =? "azure") || (s =? "bedrock")
  end.

(** [class ProviderUsage(BaseModel)] *)
Record ProviderUsage : Type := mkProviderUsage {
  pu_input_tokens_est : Z;
  pu_output_tokens_est : Z;
  pu_total_tokens_est : Z;
  pu_cost_est_usd : Q
}.

(** [class ProviderResponse(BaseModel)] *)
Record ProviderResponse : Type := mkProviderResponse {
  pr_provider : string;
  pr_model : string;
  pr_text : string;
  pr_latency_ms : Z;
  pr_usage : ProviderUsage;
  pr_raw : option string
}.

(** [class GenerateResponse(BaseModel)], the shape of the dict that
    [run_generation] returns. *)
Record GenerateResponse : Type := mkGenerateResponse {
  request_id : string;
  chosen_provider : string;
  chosen_model : string;
  text : string;
  latency_ms : Z;
  fallback_used : bool;
  attempts : list ProviderResponse
}.

(** [@dataclass class ProviderResult] *)
Record ProviderResult : Type := mkProviderResult {
  res_provider : string;
  res_model : string;
  res_text : string;
  res_latency_ms : Z;
  res_raw : option string
}.

(** ** Exceptions and effects *)

(** A raised exception: its class and [str(e)]. *)
Record PyExc : Type := mkPyExc {
  exc_class : string;
  exc_str : string
}.

Definition RuntimeError (msg : string) : PyExc :=
  {| exc_class := "RuntimeError"; exc_str := msg |}.

(** How a call ends: it returns a value or an exception propagates. *)
Inductive Outcome (A : Type) : Type :=
| Return (a : A)
| Raise (e : PyExc).
Arguments Return {A} a.
Arguments Raise {A} e.

(** A row of the table [usage_logs]; the autoincrement [id] is the
    position of the row. *)
Record UsageRow : Type := mkUsageRow {
  row_ts : Z;
  row_request_id : string;
  row_provider : string;
  row_model : string;
  row_task : string;
  row_priority : string;
  row_input_tokens_est : Z;
  row_output_tokens_est : Z;
  row_total_tokens_est : Z;
  row_cost_est_usd : Q;
  row_latency_ms : Z;
  row_success : Z;
  row_error : option string
}.

(** What a run can observe and change outside its arguments: the rows of
    the usage database, what the database engine will answer to the
    coming inserts ([Some e]: the insert raises [e] and nothing is
    committed; [None], or an exhausted script: it commits), and the
    clock behind [time.time()]. *)
Record World : Type := mkWorld {
  usage_logs : list UsageRow;
  sqlite_faults : list (option PyExc);
  clock : Z
}.

(** Effectful code: a state transformer on the [World] that returns or
    raises.  The world reached is kept in both cases. *)
Definition Run (A : Type) : Type := World -> Outcome A * World.

Definition ret {A} (a : A) : Run A := fun w => (Return a, w).

Definition raise {A} (e : PyExc) : Run A := fun w => (Raise e, w).

Definition bind {A B} (c : Run A) (k : A -> Run B) : Run B :=
  fun w =>
    match c w with
    | (Return a, w') => k a w'
    | (Raise e, w') => (Raise e, w')
    end.

(** [try: c  except Exception as e: handler e] *)
Definition try_except {A} (c : Run A) (handler : PyExc -> Run A) : Run A :=
  fun w =>
    match c w with
    | (Return a, w') => (Return a, w')
    | (Raise e, w') => handler e w'
    end.

(** A callable that touches nothing of the [World]. *)
Definition lift {A} (o : Outcome A) : Run A := fun w => (o, w).

(** [if b: c] *)
Definition when (b : bool) (c : Run unit) : Run unit :=
  if b then c else ret tt.

Declare Scope run_scope.
Delimit Scope run_scope with run.
Notation "x <- c ;; k" := (bind c (fun x => k))
  (at level 61, c at next level, right associativity) : run_scope.
Notation "' p <- c ;; k" := (bind c (fun x => match x with p => k end))
  (at level 61, p pattern, c at next level, right associativity) : run_scope.
Notation "c ;;; k" := (bind c (fun _ => k))
  (at level 61, right associativity) : run_scope.
Local Open Scope run_scope.

(** [UsageLogger.log(...)]: one [INSERT INTO usage_logs] and its commit. *)
Definition UsageLogger_log (request_id provider model task priority : string)
    (estimate : CostEstimate) (latency_ms : Z) (success : bool)
    (error : option string) : Run unit :=
  fun w =>
    let row :=
      {| row_ts := clock w;
         row_request_id := request_id;
         row_provider := provider;
         row_model := model;
         row_task := task;
         row_priority := priority;
         row_input_tokens_est := input_tokens_est estimate;
         row_output_tokens_est := output_tokens_est estimate;
         row_total_tokens_est := total_tokens_est estimate;
         row_cost_est_usd := cost_est_usd estimate;
         row_latency_ms := latency_ms;
         row_success := if success then 1 else 0;
         row_error := error |} in
    match sqlite_faults w with
    | Some e :: script =>
        (Raise e,
         {| usage_logs := usage_logs w; sqlite_faults := script;
            clock := clock w |})
    | None :: script =>
        (Return tt,
         {| usage_logs := usage_logs w ++ [row]; sqlite_faults := script;
            clock := clock w |})
    | [] =>
        (Return tt,
         {| usage_logs := usage_logs w ++ [row]; sqlite_faults := [];
            clock := clock w |})
    end.

(** ** [app/router.py] *)

Definition newline : string := String (ascii_of_nat 10) EmptyString.

(** [d.get(key, default)] on a dict written as its list of items. *)
Fixpoint dict_get (d : list (string * string)) (key default : string)
    : string :=
  match d with
  | [] => default
  | (k, v) :: d' => if k =? key then v else dict_get d' key default
  end.

(** [build_system_prompt(task)] *)
Definition build_system_prompt (task : string) : string :=
  let base :=
    "You are a helpful enterprise assistant. "
    ++ "Be concise, correct, and safe. "
    ++ "If the user requests sensitive personal data, refuse. "
    ++ "If uncertain, say you are uncertain and ask a short clarifying question." in
  let chat := "Respond naturally and helpfully." in
  let task_hints :=
    [ ("summarise", "Summarise the input in bullet points, capturing key facts and decisions.");
      ("extract", "Extract key entities/fields as JSON. If a field is missing, set it to null.");
      ("classify", "Classify the input into a small set of labels and explain briefly.");
      ("rewrite", "Rewrite for clarity and professionalism without changing meaning.");
      ("qa", "Answer the question using the provided text. If missing context, say so.");
      ("chat", chat) ] in
  base ++ newline ++ newline ++ "Task: " ++ dict_get task_hints task chat.

(** A selection [(provider_name, model_or_deployment)]. *)
Definition Selection : Type := (string * string)%type.

(** The [if priority == ... elif ... else] of [choose_models]: the routing
    table, before the hint is looked at. *)
Definition routing_table (priority : string) (azure : AzureConfig)
    (bedrock : BedrockConfig) : Selection * Selection :=
  if priority =? "low_cost" then
    (("bedrock", model_low_cost bedrock),
     ("azure", deployment_low_cost azure))
  else if priority =? "high_quality" then
    (("bedrock", model_high_quality bedrock),
     ("azure", deployment_high_quality azure))
  else
    (("azure", deployment_low_latency azure),
     ("bedrock", model_low_latency bedrock)).

(** [hint == name] for an [Optional[str]] hint. *)
Definition hint_is (hint : option string) (name : string) : bool :=
  match hint with
  | Some h => h =? name
  | None => false
  end.

(** [choose_models(req, azure, bedrock)] *)
Definition choose_models (req : GenerateRequest) (azure : AzureConfig)
    (bedrock : BedrockConfig) : Selection * Selection :=
  let '(primary, secondary) := routing_table (priority req) azure bedrock in
  if hint_is (provider_hint req) "azure" && negb (fst primary =? "azure") then
    (secondary, primary)
  else if hint_is (provider_hint req) "bedrock"
          && negb (fst primary =? "bedrock") then
    (secondary, primary)
  else
    (primary, secondary).

(** The keyword arguments of [LLMProvider.generate]. *)
Record GenerateCall : Type := mkGenerateCall {
  gc_prompt : string;
  gc_system_prompt : string;
  gc_model_or_deployment : string;
  gc_max_output_tokens : Z;
  gc_temperature : Q;
  gc_top_p : Q;
  gc_timeout_s : Q
}.

(** [class LLMProvider(Protocol)]: an adapter is what its [generate]
    answers, a [ProviderResult] or an exception. *)
Record LLMProvider : Type := mkLLMProvider {
  provider_name : string;
  generate : GenerateCall -> Outcome ProviderResult
}.

Section RunGeneration.

Variable app_cfg : AppConfig.
Variable azure_cfg : AzureConfig.
Variable bedrock_cfg : BedrockConfig.
Variable req : GenerateRequest.
Variable azure_provider : LLMProvider.
Variable bedrock_provider : LLMProvider.
(** The value of [str(uuid.uuid4())] in this run. *)
Variable rid : string.

Definition generate_args (system_prompt model_id : string) : GenerateCall :=
  {| gc_prompt := prompt req;
     gc_system_prompt := system_prompt;
     gc_model_or_deployment := model_id;
     gc_max_output_tokens := max_output_tokens req;
     gc_temperature := temperature req;
     gc_top_p := top_p req;
     gc_timeout_s := hard_timeout_s app_cfg |}.

(** The provider invocation and cost estimate of the inner function
    [call], lines 82-115: pure in the [World]. *)
Definition invoke (system_prompt provider_name model_id : string)
    : Outcome (ProviderResult * CostEstimate) :=
  if provider_name =? "azure" then
    match generate azure_provider (generate_args system_prompt model_id) with
    | Return result =>
        Return (result,
                estimate_cost "azure" (prompt req) (res_text result)
                  (azure_cost_per_1k_input_usd app_cfg)
                  (azure_cost_per_1k_output_usd app_cfg))
    | Raise e => Raise e
    end
  else
    match generate bedrock_provider (generate_args system_prompt model_id) with
    | Return result =>
        Return (result,
                estimate_cost "bedrock" (prompt req) (res_text result)
                  (bedrock_cost_per_1k_input_usd app_cfg)
                  (bedrock_cost_per_1k_output_usd app_cfg))
    | Raise e => Raise e
    end.

(** The inner function [call(provider_name, model_id)] of
    [run_generation]. *)
Definition call (system_prompt provider_name model_id : string)
    : Run ProviderResponse :=
  '(result, est) <- lift (invoke system_prompt provider_name model_id) ;;
  when (enable_request_logging app_cfg)
    (UsageLogger_log rid provider_name model_id (task req) (priority req)
       est (res_latency_ms result) true None) ;;;
  ret {| pr_provider := provider_name;
         pr_model := model_id;
         pr_text := res_text result;
         pr_latency_ms := res_latency_ms result;
         pr_usage :=
           {| pu_input_tokens_est := input_tokens_est est;
              pu_output_tokens_est := output_tokens_est est;
              pu_total_tokens_est := total_tokens_est est;
              pu_cost_est_usd := cost_est_usd est |};
         pr_raw := None |}.

(** The failure record written in both [except] blocks. *)
Definition log_failure (sel : Selection) (e : PyExc) : Run unit :=
  when (enable_request_logging app_cfg)
    (let est :=
       {| input_tokens_est := est_tokens (prompt req);
          output_tokens_est := 0;
          total_tokens_est := est_tokens (prompt req);
          cost_est_usd := 0 |} in
     UsageLogger_log rid (fst sel) (snd sel) (task req) (priority req)
       est 0 false (Some (Py.slice_to 500 (exc_str e)))).

(** The message of the [RuntimeError] raised on line 199. *)
Definition both_failed_message (e1 e2 : PyExc) : string :=
  "Both providers failed. Primary: " ++ exc_str e1
  ++ "; Secondary: " ++ exc_str e2.

(** [run_generation(app_cfg=..., ..., usage_logger=...)].  The locals
    [chosen], [attempts] and [fallback_used] leave the [try] statement
    as a triple. *)
Definition run_generation : Run GenerateResponse :=
  let request_id := rid in
  let system_prompt := build_system_prompt (task req) in
  let '(primary, secondary) := choose_models req azure_cfg bedrock_cfg in
  let attempts : list ProviderResponse := [] in
  let fallback_used := false in
  '(chosen, attempts, fallback_used) <-
    try_except
      (pr <- call system_prompt (fst primary) (snd primary) ;;
       ret (pr, (attempts ++ [pr])%list, fallback_used))
      (fun e1 =>
         log_failure primary e1 ;;;
         let fallback_used := true in
         try_except
           (sr <- call system_prompt (fst secondary) (snd secondary) ;;
            ret (sr, (attempts ++ [sr])%list, fallback_used))
           (fun e2 =>
              log_failure secondary e2 ;;;
              raise (RuntimeError (both_failed_message e1 e2)))) ;;
  ret {| request_id := request_id;
         chosen_provider := pr_provider chosen;
         chosen_model := pr_model chosen;
         text := pr_text chosen;
         latency_ms := pr_latency_ms chosen;
         fallback_used := fallback_used;
         attempts := attempts |}.

End RunGeneration.

(** ** Attempts of a run *)

Section Attempts.

Variable app_cfg : AppConfig.
Variable azure_cfg : AzureConfig.
Variable bedrock_cfg : BedrockConfig.
Variable req : GenerateRequest.
Variable azure_provider : LLMProvider.
Variable bedrock_provider : LLMProvider.
Variable rid : string.

Definition primary_selection : Selection :=
  fst (choose_models req azure_cfg bedrock_cfg).

Definition secondary_selection : Selection :=
  snd (choose_models req azure_cfg bedrock_cfg).

(** The provider invocation of the primary attempt: what the primary
    adapter's [generate] answers, with the cost estimate of its text. *)
Definition primary_invocation : Outcome (ProviderResult * CostEstimate) :=
  invoke app_cfg req azure_provider bedrock_provider
    (build_system_prompt (task req))
    (fst primary_selection) (snd primary_selection).

Definition secondary_invocation : Outcome (ProviderResult * CostEstimate) :=
  invoke app_cfg req azure_provider bedrock_provider
    (build_system_prompt (task req))
    (fst secondary_selection) (snd secondary_selection).

(** The primary attempt: [call(primary[0], primary[1])] in the first
    [try] block, the invocation followed by its success record. *)
Definition primary_attempt : Run ProviderResponse :=
  call app_cfg req azure_provider bedrock_provider rid
    (build_system_prompt (task req))
    (fst primary_selection) (snd primary_selection).

(** The secondary attempt: [call(secondary[0], secondary[1])] in the
    nested [try] block. *)
Definition secondary_attempt : Run ProviderResponse :=
  call app_cfg req azure_provider bedrock_provider rid
    (build_system_prompt (task req))
    (fst secondary_selection) (snd secondary_selection).

(** The world in which the secondary attempt starts: the one the first
    [except] block leaves after it has recorded the primary's failure. *)
Definition world_at_fallback (w : World) : World :=
  match primary_attempt w with
  | (Return _, w1) => w1
  | (Raise e1, w1) => snd (log_failure app_cfg req rid primary_selection e1 w1)
  end.

(** The [ProviderResponse] that [call] builds from a provider result. *)
Definition response_of (sel : Selection) (x : ProviderResult * CostEstimate)
    : ProviderResponse :=
  {| pr_provider := fst sel;
     pr_model := snd sel;
     pr_text := res_text (fst x);
     pr_latency_ms := res_latency_ms (fst x);
     pr_usage :=
       {| pu_input_tokens_est := input_tokens_est (snd x);
          pu_output_tokens_est := output_tokens_est (snd x);
          pu_total_tokens_est := total_tokens_est (snd x);
          pu_cost_est_usd := cost_est_usd (snd x) |};
     pr_raw := None |}.

(** The dict returned on line 201 for a chosen response. *)
Definition result_of (chosen : ProviderResponse) (fallback : bool)
    : GenerateResponse :=
  {| request_id := rid;
     chosen_provider := pr_provider chosen;
     chosen_model := pr_model chosen;
     text := pr_text chosen;
     latency_ms := pr_latency_ms chosen;
     fallback_used := fallback;
     attempts := [chosen] |}.

End Attempts.

(** An effectful call fails in a world when it raises there, and succeeds
    when it returns. *)
Definition failed {A} (c : Run A) (w : World) : Prop :=
  exists e w', c w = (Raise e, w').

Definition succeeded {A} (c : Run A) (w : World) : Prop :=
  exists a w', c w = (Return a, w').

(** Whether the next insert into [usage_logs] commits. *)
Definition next_insert_commits (w : World) : bool :=
  match sqlite_faults w with
  | Some _ :: _ => false
  | _ => true
  end.




(** ** Sample configurations, requests and providers *)

Module Sample.

Definition azure_cfg : AzureConfig :=
  {| endpoint := "https://gateway.openai.azure.com";
     api_key := "key";
     api_version := "2024-02-15-preview";
     deployment_low_cost := "gpt-4o-mini";
     deployment_high_quality := "gpt-4o";
     deployment_low_latency := "gpt-35-turbo" |}.

Definition bedrock_cfg : BedrockConfig :=
  {| region := "eu-west-2";
     model_low_cost := "anthropic.claude-3-haiku";
     model_high_quality := "anthropic.claude-3-5-sonnet";
     model_low_latency := "anthropic.claude-instant" |}.

(** A request with every optional field at its default. *)
Definition request (prompt priority : string) (hint : option string)
    : GenerateRequest :=
  {| prompt := prompt;
     task := "chat";
     priority := priority;
     max_output_tokens := 512;
     temperature := 0.2;
     top_p := 0.9;
     provider_hint := hint;
     metadata := [] |}.

(** An adapter whose [generate] returns [text] after [latency] ms. *)
Definition answering (name text : string) (latency : Z) : LLMProvider :=
  {| provider_name := name;
     generate := fun c =>
       Return {| res_provider := name;
                 res_model := gc_model_or_deployment c;
                 res_text := text;
                 res_latency_ms := latency;
                 res_raw := None |} |}.

(** An adapter whose [generate] raises [RuntimeError(msg)]. *)
Definition failing (name msg : string) : LLMProvider :=
  {| provider_name := name;
     generate := fun _ => Raise (RuntimeError msg) |}.

Definition disk_error : PyExc :=
  {| exc_class := "sqlite3.OperationalError"; exc_str := "disk I/O error" |}.

(** An empty usage database whose coming inserts follow [script]. *)
Definition world (script : list (option PyExc)) : World :=
  {| usage_logs := []; sqlite_faults := script; clock := 1700000000 |}.

(** [default_app_config] with [ENABLE_REQUEST_LOGGING=false]. *)
Definition quiet_app_config : AppConfig :=
  {| env := env default_app_config;
     log_db_path := log_db_path default_app_config;
     hard_timeout_s := hard_timeout_s default_app_config;
     enable_request_logging := false;
     azure_cost_per_1k_input_usd :=
       azure_cost_per_1k_input_usd default_app_config;
     azure_cost_per_1k_output_usd :=
       azure_cost_per_1k_output_usd default_app_config;
     bedrock_cost_per_1k_input_usd :=
       bedrock_cost_per_1k_input_usd default_app_config;
     bedrock_cost_per_1k_output_usd :=
       bedrock_cost_per_1k_output_usd default_app_config |}.


(** The request of the concrete runs: a low-cost chat request without a
    provider hint. *)
Definition hello : GenerateRequest := request "hello" "low_cost" None.

Definition azure_up : LLMProvider := answering "azure" "hi from azure" 120.

Definition bedrock_up : LLMProvider := answering "bedrock" "hi from bedrock" 95.

Definition azure_down : LLMProvider :=
  failing "azure" "Azure OpenAI error 503: busy".

Definition bedrock_down : LLMProvider :=
  failing "bedrock" "Empty Bedrock completion. Raw: {}".

(** The run of [hello] under the default configuration, on an empty usage
    database whose inserts follow [script]. *)
Definition run (azure bedrock : LLMProvider) (script : list (option PyExc))
    : Outcome GenerateResponse * World :=
  run_generation default_app_config azure_cfg bedrock_cfg hello
    azure bedrock "7d9f2c1e" (world script).

(** The same run with [ENABLE_REQUEST_LOGGING=false]. *)
Definition quiet_run (azure bedrock : LLMProvider)
    (script : list (option PyExc)) : Outcome GenerateResponse * World :=
  run_generation quiet_app_config azure_cfg bedrock_cfg hello
    azure bedrock "7d9f2c1e" (world script).

End Sample.

(** ** Usage rows of a run *)

(** The row that [UsageLogger.log] inserts when the clock shows [now]. *)
Definition usage_row (now : Z) (request_id provider model task priority : string)
    (estimate : CostEstimate) (latency_ms : Z) (success : bool)
    (error : option string) : UsageRow :=
  {| row_ts := now;
     row_request_id := request_id;
     row_provider := provider;
     row_model := model;
     row_task := task;
     row_priority := priority;
     row_input_tokens_est := input_tokens_est estimate;
     row_output_tokens_est := output_tokens_est estimate;
     row_total_tokens_est := total_tokens_est estimate;
     row_cost_est_usd := cost_est_usd estimate;
     row_latency_ms := latency_ms;
     row_success := if success then 1 else 0;
     row_error := error |}.

(** From [w] to [w'] the rows [rows] were appended to the usage database
    and nothing else changed: the rows already there are kept, the clock
    is the same, and the coming faults of [w'] are coming faults of [w]. *)
Definition appends (w w' : World) (rows : list UsageRow) : Prop :=
  usage_logs w' = (usage_logs w ++ rows)%list
  /\ clock w' = clock w
  /\ incl (sqlite_faults w') (sqlite_faults w).

(** The shape of the row of a successful attempt. *)
Definition success_row (row : UsageRow) : Prop :=
  row_success row = 1 /\ row_error row = None.

(** The shape of the row of a failed attempt on [prompt]. *)
Definition failure_row (prompt : string) (row : UsageRow) : Prop :=
  row_success row = 0
  /\ row_latency_ms row = 0
  /\ row_input_tokens_est row = est_tokens prompt
  /\ row_output_tokens_est row = 0
  /\ row_total_tokens_est row = est_tokens prompt
  /\ row_cost_est_usd row = 0%Q
  /\ exists msg, row_error row = Some msg /\ (String.length msg <= 500)%nat.

(** ** Tiers of the routing table *)

(** The Bedrock model that the routing table pairs with a priority. *)
Definition bedrock_model_for (priority : string) (bedrock : BedrockConfig)
    : string :=
  if priority =? "low_cost" then model_low_cost bedrock
  else if priority =? "high_quality" then model_high_quality bedrock
  else model_low_latency bedrock.

(** The Azure deployment that the routing table pairs with a priority. *)
Definition azure_deployment_for (priority : string) (azure : AzureConfig)
    : string :=
  if priority =? "low_cost" then deployment_low_cost azure
  else if priority =? "high_quality" then deployment_high_quality azure
  else deployment_low_latency azure.

(** The keys of [task_hints] in [build_system_prompt]. *)
Definition known_tasks : list string :=
  ["summarise"; "extract"; "classify"; "rewrite"; "qa"; "chat"].

(** ** String methods and the process environment *)

(** A character of a [string] stands for the code point of its number, so
    the strings of the embedding are the Python strings of code points
    below 256. *)
Module PyStr.

(** [c.isspace()] for a one-character string. *)
Definition isspace (c : ascii) : bool :=
  let n := nat_of_ascii c in
  ((9 <=? n) && (n <=? 13) || (28 <=? n) && (n <=? 32)
   || (n =? 133) || (n =? 160))%nat.

(** [s.lstrip()] *)
Fixpoint lstrip (s : string) : string :=
  match s with
  | EmptyString => EmptyString
  | String c s' => if isspace c then lstrip s' else s
  end.

(** [s.rstrip()] *)
Fixpoint rstrip (s : string) : string :=
  match s with
  | EmptyString => EmptyString
  | String c s' =>
      match rstrip s' with
      | EmptyString => if isspace c then EmptyString else String c EmptyString
      | r => String c r
      end
  end.

(** [s.strip()] *)
Definition strip (s : string) : string := rstrip (lstrip s).

(** [c.lower()] for a one-character string. *)
Definition lower_char (c : ascii) : ascii :=
  let n := nat_of_ascii c in
  if ((65 <=? n) && (n <=? 90)
      || (192 <=? n) && (n <=? 222) && negb (n =? 215))%nat
  then ascii_of_nat (n + 32)
  else c.

(** [s.lower()] *)
Fixpoint lower (s : string) : string :=
  match s with
  | EmptyString => EmptyString
  | String c s' => String (lower_char c) (lower s')
  end.

(** Whether every character of [s] is white space. *)
Fixpoint all_space (s : string) : bool :=
  match s with
  | EmptyString => true
  | String c s' => isspace c && all_space s'
  end.

End PyStr.

(** [os.environ], as its list of items. *)
Definition Environ : Type := list (string * string).

(** [os.getenv(name, default)] *)
Fixpoint os_getenv (environ : Environ) (name : string)
    (default : option string) : option string :=
  match environ with
  | [] => default
  | (k, v) :: environ' =>
      if k =? name then Some v else os_getenv environ' name default
  end.

Definition ValueError (msg : string) : PyExc :=
  {| exc_class := "ValueError"; exc_str := msg |}.

(** [_get_env(name, default, required)]; the result is [None] when the
    variable is unset and has no default. *)
Definition _get_env (environ : Environ) (name : string)
    (default : option string) (required : bool) : Outcome (option string) :=
  let v := os_getenv environ name default in
  if required
     && match v with
        | None => true
        | Some s => String.eqb (PyStr.strip s) EmptyString
        end
  then Raise (ValueError ("Missing required environment variable: " ++ name))
  else Return v.

(** Sequencing of calls that may raise. *)
Definition and_then {A B} (o : Outcome A) (k : A -> Outcome B) : Outcome B :=
  match o with
  | Return a => k a
  | Raise e => Raise e
  end.

Declare Scope outcome_scope.
Delimit Scope outcome_scope with out.
Notation "x <- c ;; k" := (and_then c (fun x => k))
  (at level 61, c at next level, right associativity) : outcome_scope.

(** [_get_env(name, default)] where a default is given: the value is a
    string, that of the variable or the default. *)
Definition env_default (environ : Environ) (name default : string) : string :=
  match _get_env environ name (Some default) false with
  | Return (Some v) => v
  | _ => default
  end.

(** [_get_env(name, required=True)]: the value is a string, since an unset
    variable raises. *)
Definition env_required (environ : Environ) (name : string) : Outcome string :=
  match _get_env environ name None true with
  | Return (Some v) => Return v
  | Return None =>
      Raise (ValueError ("Missing required environment variable: " ++ name))
  | Raise e => Raise e
  end.

Section LoadConfig.

(** [float(s)] for a string: the number it denotes, or the [ValueError] of
    a string that denotes none. *)
Variable py_float : string -> Outcome Q.

(** [load_config()] in the environment [environ]. *)
Definition load_config (environ : Environ)
    : Outcome (AppConfig * AzureConfig * BedrockConfig) :=
  (let env_ := env_default environ "APP_ENV" "dev" in
   let log_db_path_ := env_default environ "LOG_DB_PATH" "./usage_logs.sqlite" in
   timeout <- py_float (env_default environ "HARD_TIMEOUT_S" "20") ;;
   let logging :=
     PyStr.lower (env_default environ "ENABLE_REQUEST_LOGGING" "true")
     =? "true" in
   azure_in <-
     py_float (env_default environ "AZURE_COST_PER_1K_INPUT_USD" "0.00015") ;;
   azure_out <-
     py_float (env_default environ "AZURE_COST_PER_1K_OUTPUT_USD" "0.00060") ;;
   bedrock_in <-
     py_float (env_default environ "BEDROCK_COST_PER_1K_INPUT_USD" "0.00025") ;;
   bedrock_out <-
     py_float (env_default environ "BEDROCK_COST_PER_1K_OUTPUT_USD" "0.00125") ;;
   let app :=
     {| env := env_;
        log_db_path := log_db_path_;
        hard_timeout_s := timeout;
        enable_request_logging := logging;
        azure_cost_per_1k_input_usd := azure_in;
        azure_cost_per_1k_output_usd := azure_out;
        bedrock_cost_per_1k_input_usd := bedrock_in;
        bedrock_cost_per_1k_output_usd := bedrock_out |} in
   endpoint_ <- env_required environ "AZURE_OPENAI_ENDPOINT" ;;
   api_key_ <- env_required environ "AZURE_OPENAI_API_KEY" ;;
   let api_version_ :=
     env_default environ "AZURE_OPENAI_API_VERSION" "2024-02-15-preview" in
   low_cost <- env_required environ "AZURE_DEPLOYMENT_LOW_COST" ;;
   high_quality <- env_required environ "AZURE_DEPLOYMENT_HIGH_QUALITY" ;;
   low_latency <- env_required environ "AZURE_DEPLOYMENT_LOW_LATENCY" ;;
   let azure :=
     {| endpoint := endpoint_;
        api_key := api_key_;
        api_version := api_version_;
        deployment_low_cost := low_cost;
        deployment_high_quality := high_quality;
        deployment_low_latency := low_latency |} in
   region_ <- env_required environ "AWS_REGION" ;;
   b_low_cost <- env_required environ "BEDROCK_MODEL_LOW_COST" ;;
   b_high_quality <- env_required environ "BEDROCK_MODEL_HIGH_QUALITY" ;;
   b_low_latency <- env_required environ "BEDROCK_MODEL_LOW_LATENCY" ;;
   let bedrock :=
     {| region := region_;
        model_low_cost := b_low_cost;
        model_high_quality := b_high_quality;
        model_low_latency := b_low_latency |} in
   Return (app, azure, bedrock))%out.

End LoadConfig.

(** The variables that [load_config] requires, in the order it reads
    them. *)
Definition required_variables : list string :=
  ["AZURE_OPENAI_ENDPOINT"; "AZURE_OPENAI_API_KEY";
   "AZURE_DEPLOYMENT_LOW_COST"; "AZURE_DEPLOYMENT_HIGH_QUALITY";
   "AZURE_DEPLOYMENT_LOW_LATENCY"; "AWS_REGION"; "BEDROCK_MODEL_LOW_COST";
   "BEDROCK_MODEL_HIGH_QUALITY"; "BEDROCK_MODEL_LOW_LATENCY"].

(** The variables that [load_config] passes to [float], each with its
    default. *)
Definition float_variables : list (string * string) :=
  [("HARD_TIMEOUT_S", "20");
   ("AZURE_COST_PER_1K_INPUT_USD", "0.00015");
   ("AZURE_COST_PER_1K_OUTPUT_USD", "0.00060");
   ("BEDROCK_COST_PER_1K_INPUT_USD", "0.00025");
   ("BEDROCK_COST_PER_1K_OUTPUT_USD", "0.00125")].

(** Whether a variable is unset or blank in [environ], which is what makes
    a required variable raise. *)
Definition unset_or_blank (environ : Environ) (name : string) : bool :=
  match os_getenv environ name None with
  | None => true
  | Some s => PyStr.all_space s
  end.

(** ** [app/main.py] *)

Module Main.

(** [fastapi.HTTPException(status_code, detail)] *)
Record HTTPException : Type := mkHTTPException {
  status_code : Z;
  detail : string
}.

(** The handler of [POST /generate]: it returns the result of
    [run_generation], or raises an [HTTPException]. *)
Definition generate (app_cfg : AppConfig) (azure_cfg : AzureConfig)
    (bedrock_cfg : BedrockConfig) (azure_provider bedrock_provider : LLMProvider)
    (rid : string) (req : GenerateRequest)
    : World -> (GenerateResponse + HTTPException) * World :=
  fun w =>
    match run_generation app_cfg azure_cfg bedrock_cfg req azure_provider
            bedrock_provider rid w with
    | (Return result, w') => (inl result, w')
    | (Raise e, w') =>
        (inr {| status_code := 500; detail := exc_str e |}, w')
    end.

(** The handler of [GET /health]: the dict it returns, as its items. *)
Definition health (app_cfg : AppConfig) : list (string * string) :=
  [("status", "ok"); ("env", env app_cfg)].

End Main.

(** ** Python values and the provider adapters *)

(** The values that [json.loads] builds.  A float is given by a rational;
    only its truth value is looked at. *)
Local Unset Elimination Schemes.

Inductive PyVal : Type :=
| PyNone
| PyBool (b : bool)
| PyInt (n : Z)
| PyFloat (x : Q)
| PyStr (s : string)
| PyList (items : list PyVal)
| PyDict (items : list (string * PyVal)).

Local Set Elimination Schemes.

Module PyObj.

(** [bool(v)] *)
Definition truthy (v : PyVal) : bool :=
  match v with
  | PyNone => false
  | PyBool b => b
  | PyInt n => negb (Z.eqb n 0)
  | PyFloat x => negb (Qeq_bool x 0)
  | PyStr s => negb (Py.not_str s)
  | PyList items => match items with [] => false | _ :: _ => true end
  | PyDict items => match items with [] => false | _ :: _ => true end
  end.

(** The value of [key] in the items of a dict. *)
Fixpoint lookup (items : list (string * PyVal)) (key : string)
    : option PyVal :=
  match items with
  | [] => None
  | (k, v) :: items' => if k =? key then Some v else lookup items' key
  end.

(** [v.get(key, default)]; [None] stands for the [AttributeError] of a
    value that is no dict. *)
Definition get (v : PyVal) (key : string) (default : PyVal) : option PyVal :=
  match v with
  | PyDict items =>
      match lookup items key with
      | Some x => Some x
      | None => Some default
      end
  | _ => None
  end.

(** [v[key]] for a string [key]; [None] stands for the [KeyError] of a
    missing key and the [TypeError] of a value that is no dict. *)
Definition item (v : PyVal) (key : string) : option PyVal :=
  match v with
  | PyDict items => lookup items key
  | _ => None
  end.

(** [v[0]]; [None] stands for the [IndexError] of an empty sequence, the
    [KeyError] of a dict, whose keys are strings, and the [TypeError] of
    the other values. *)
Definition item0 (v : PyVal) : option PyVal :=
  match v with
  | PyList (x :: _) => Some x
  | PyStr (String c _) => Some (PyStr (String c EmptyString))
  | _ => None
  end.

(** [isinstance(v, dict)] *)
Definition is_dict (v : PyVal) : bool :=
  match v with PyDict _ => true | _ => false end.

(** [isinstance(v, list)] *)
Definition is_list (v : PyVal) : bool :=
  match v with PyList _ => true | _ => false end.

End PyObj.

(** [s.rstrip("/")] *)
Fixpoint rstrip_slash (s : string) : string :=
  match s with
  | EmptyString => EmptyString
  | String c s' =>
      match rstrip_slash s' with
      | EmptyString =>
          if Ascii.eqb c "/"%char then EmptyString else String c EmptyString
      | r => String c r
      end
  end.

(** [str(n)] for an int. *)
Definition str_of_int (n : Z) : string :=
  DecimalString.NilZero.string_of_int (Z.to_int n).

(** A [ProviderResult] as an adapter builds it: the dataclass does not
    check its fields, so [text] is whatever value the response holds. *)
Record AdapterResult : Type := mkAdapterResult {
  ar_provider : string;
  ar_model : string;
  ar_text : PyVal;
  ar_latency_ms : Z;
  ar_raw : option PyVal
}.

(** The fields of an [AzureOpenAIProvider]. *)
Record AzureOpenAIProvider : Type := mkAzureOpenAIProvider {
  az_endpoint : string;
  az_api_key : string;
  az_api_version : string
}.

(** [AzureOpenAIProvider.__init__(endpoint, api_key, api_version)] *)
Definition AzureOpenAIProvider_init (endpoint api_key api_version : string)
    : AzureOpenAIProvider :=
  {| az_endpoint := rstrip_slash endpoint;
     az_api_key := api_key;
     az_api_version := api_version |}.

(** What [client.post] is called with. *)
Record HttpRequest : Type := mkHttpRequest {
  rq_url : string;
  rq_headers : list (string * string);
  rq_json : PyVal;
  rq_timeout : Q
}.

(** What the code reads of an [httpx.Response]: the status code, the
    body as text, and what [resp.json()] answers. *)
Record HttpResponse : Type := mkHttpResponse {
  resp_status_code : Z;
  resp_text : string;
  resp_json : Outcome PyVal
}.

Section Adapters.

(** [str(v)], as it appears in the f-strings of the error messages. *)
Variable py_str : PyVal -> string.

(** The HTTP exchange of the Azure adapter: the seconds that
    [time.perf_counter] measures around it and the response, or the
    exception of [client.post]. *)
Variable http_post : HttpRequest -> Outcome (Q * HttpResponse).

(** The Bedrock exchange: model id and request body to the measured
    seconds and the parsed response body, or the exception of
    [invoke_model], of [read], of [decode] or of [json.loads]. *)
Variable invoke_model : string -> PyVal -> Outcome (Q * PyVal).

(** [int((time.perf_counter() - start) * 1000)] *)
Definition latency_of (seconds : Q) : Z := Py.int_of_float (seconds * 1000).

(** [data["choices"][0]["message"]["content"]]; [None] when one of the
    four subscripts raises. *)
Definition azure_content (data : PyVal) : option PyVal :=
  match PyObj.item data "choices" with
  | Some choices =>
      match PyObj.item0 choices with
      | Some choice =>
          match PyObj.item choice "message" with
          | Some message => PyObj.item message "content"
          | None => None
          end
      | None => None
      end
  | None => None
  end.

(** The request that [AzureOpenAIProvider.generate] posts: URL, headers
    and JSON payload, with the timeout of the client. *)
Definition azure_request (self : AzureOpenAIProvider) (c : GenerateCall)
    : HttpRequest :=
  let url :=
    az_endpoint self ++ "/openai/deployments/" ++ gc_model_or_deployment c
    ++ "/chat/completions" ++ "?api-version=" ++ az_api_version self in
  let headers :=
    [("api-key", az_api_key self); ("Content-Type", "application/json")] in
  let payload :=
    PyDict
      [("messages",
        PyList
          [PyDict [("role", PyStr "system");
                   ("content", PyStr (gc_system_prompt c))];
           PyDict [("role", PyStr "user");
                   ("content", PyStr (gc_prompt c))]]);
       ("max_tokens", PyInt (gc_max_output_tokens c));
       ("temperature", PyFloat (gc_temperature c));
       ("top_p", PyFloat (gc_top_p c))] in
  {| rq_url := url; rq_headers := headers; rq_json := payload;
     rq_timeout := gc_timeout_s c |}.

(** [AzureOpenAIProvider.generate(...)] *)
Definition AzureOpenAIProvider_generate (self : AzureOpenAIProvider)
    (c : GenerateCall) : Outcome AdapterResult :=
  (exchange <- http_post (azure_request self c) ;;
   let latency_ms := latency_of (fst exchange) in
   let resp := snd exchange in
   if resp_status_code resp >=? 400 then
     Raise (RuntimeError ("Azure OpenAI error "
                          ++ str_of_int (resp_status_code resp) ++ ": "
                          ++ resp_text resp))
   else
     data <- resp_json resp ;;
     match azure_content data with
     | None =>
         Raise (RuntimeError ("Unexpected Azure response format: "
                              ++ py_str data))
     | Some text =>
         Return {| ar_provider := "azure";
                   ar_model := gc_model_or_deployment c;
                   ar_text := text;
                   ar_latency_ms := latency_ms;
                   ar_raw := if PyObj.is_dict data then Some data else None |}
     end)%out.

(** The [try] block of [AwsBedrockProvider.generate] that picks the text
    of the response; [None] when it raises. *)
Definition bedrock_text (data : PyVal) : option PyVal :=
  let text := PyStr EmptyString in
  match PyObj.get data "content" (PyList []) with
  | None => None
  | Some content =>
      match
        (if PyObj.truthy content && PyObj.is_list content then
           match PyObj.item0 content with
           | Some first => PyObj.get first "text" (PyStr EmptyString)
           | None => None
           end
         else Some text)
      with
      | None => None
      | Some text =>
          if negb (PyObj.truthy text)
          then PyObj.get data "completion" (PyStr EmptyString)
          else Some text
      end
  end.

(** The request body that [AwsBedrockProvider.generate] sends. *)
Definition bedrock_body (c : GenerateCall) : PyVal :=
  PyDict
    [("anthropic_version", PyStr "bedrock-2023-05-31");
     ("max_tokens", PyInt (gc_max_output_tokens c));
     ("temperature", PyFloat (gc_temperature c));
     ("top_p", PyFloat (gc_top_p c));
     ("messages",
      PyList
        [PyDict
           [("role", PyStr "user");
            ("content",
             PyList
               [PyDict
                  [("type", PyStr "text");
                   ("text",
                    PyStr (PyStr.strip
                             (gc_system_prompt c ++ newline ++ newline
                              ++ gc_prompt c)))]])]])].

(** [AwsBedrockProvider.generate(...)] *)
Definition AwsBedrockProvider_generate (c : GenerateCall)
    : Outcome AdapterResult :=
  (exchange <- invoke_model (gc_model_or_deployment c) (bedrock_body c) ;;
   let latency_ms := latency_of (fst exchange) in
   let data := snd exchange in
   match bedrock_text data with
   | None =>
       Raise (RuntimeError ("Unexpected Bedrock response format: "
                            ++ py_str data))
   | Some text =>
       if match text with
          | PyStr s => String.eqb (PyStr.strip s) EmptyString
          | _ => true
          end
       then Raise (RuntimeError ("Empty Bedrock completion. Raw: "
                                 ++ py_str data))
       else
         Return {| ar_provider := "bedrock";
                   ar_model := gc_model_or_deployment c;
                   ar_text := text;
                   ar_latency_ms := latency_ms;
                   ar_raw := if PyObj.is_dict data then Some data else None |}
   end)%out.

End Adapters.

(** Whether a call raised. *)
Definition raises {A} (o : Outcome A) : bool :=
  match o with
  | Return _ => false
  | Raise _ => true
  end.

(** ** Sample environment and exchanges *)

Module SampleEnv.

(** A [float] that knows the literals of the defaults and "30". *)
Definition py_float (s : string) : Outcome Q :=
  if s =? "20" then Return 20%Q
  else if s =? "30" then Return 30%Q
  else if s =? "0.00015" then Return 0.00015%Q
  else if s =? "0.00060" then Return 0.00060%Q
  else if s =? "0.00025" then Return 0.00025%Q
  else if s =? "0.00125" then Return 0.00125%Q
  else Raise (ValueError ("could not convert string to float: " ++ s)).

(** An environment with the nine required variables and nothing else. *)
Definition required_only : Environ :=
  [("AZURE_OPENAI_ENDPOINT", "https://gateway.openai.azure.com/");
   ("AZURE_OPENAI_API_KEY", "key");
   ("AZURE_DEPLOYMENT_LOW_COST", "gpt-4o-mini");
   ("AZURE_DEPLOYMENT_HIGH_QUALITY", "gpt-4o");
   ("AZURE_DEPLOYMENT_LOW_LATENCY", "gpt-35-turbo");
   ("AWS_REGION", "eu-west-2");
   ("BEDROCK_MODEL_LOW_COST", "anthropic.claude-3-haiku");
   ("BEDROCK_MODEL_HIGH_QUALITY", "anthropic.claude-3-5-sonnet");
   ("BEDROCK_MODEL_LOW_LATENCY", "anthropic.claude-instant")].

(** An environment whose Azure key is blank and whose region is unset. *)
Definition blank_key : Environ :=
  [("AZURE_OPENAI_ENDPOINT", "https://gateway.openai.azure.com/");
   ("AZURE_OPENAI_API_KEY", "   ");
   ("AZURE_DEPLOYMENT_LOW_COST", "gpt-4o-mini")].

(** An environment whose timeout is no number. *)
Definition bad_timeout : Environ := [("HARD_TIMEOUT_S", "soon")].

(** The arguments of a provider call. *)
Definition a_call : GenerateCall :=
  {| gc_prompt := "hello";
     gc_system_prompt := build_system_prompt "chat";
     gc_model_or_deployment := "gpt-4o-mini";
     gc_max_output_tokens := 512;
     gc_temperature := 0.2;
     gc_top_p := 0.9;
     gc_timeout_s := 20 |}.

Definition adapter : AzureOpenAIProvider :=
  AzureOpenAIProvider_init "https://gateway.openai.azure.com/" "key"
    "2024-02-15-preview".

(** A stand-in for [str] of a response. *)
Definition py_str (v : PyVal) : string := "<response>".

(** An exchange that takes a quarter of a second and answers [resp]. *)
Definition answering_http (resp : HttpResponse)
    : HttpRequest -> Outcome (Q * HttpResponse) :=
  fun _ => Return (0.25%Q, resp).

Definition throttled : HttpResponse :=
  {| resp_status_code := 429;
     resp_text := "Too Many Requests";
     resp_json := Raise (ValueError "Expecting value") |}.

(** A chat completion whose content is null. *)
Definition null_content : PyVal :=
  PyDict
    [("id", PyStr "chatcmpl-1");
     ("choices",
      PyList
        [PyDict
           [("index", PyInt 0);
            ("message",
             PyDict [("role", PyStr "assistant"); ("content", PyNone)])]])].

Definition completion_ok : HttpResponse :=
  {| resp_status_code := 200;
     resp_text := "{...}";
     resp_json := Return null_content |}.

(** A Bedrock exchange that takes a quarter of a second and answers
    [data]. *)
Definition answering_bedrock (data : PyVal)
    : string -> PyVal -> Outcome (Q * PyVal) :=
  fun _ _ => Return (0.25%Q, data).

(** A Claude response with a content text and a completion. *)
Definition claude_response : PyVal :=
  PyDict
    [("content", PyList [PyDict [("type", PyStr "text");
                                 ("text", PyStr "hi there")]]);
     ("completion", PyStr "ignored")].

End SampleEnv.

(** * Properties *)

(** ** Routing policy *)

Section Routing.

Variable azure : AzureConfig.
Variable bedrock : BedrockConfig.

Lemma routing_table_providers (p : string) :
  let t := routing_table p azure bedrock in
  (fst (fst t) = "bedrock" /\ fst (snd t) = "azure")
  \/ (fst (fst t) = "azure" /\ fst (snd t) = "bedrock").
Proof.
  unfold routing_table.
  destruct (p =? "low_cost"); [left; split; reflexivity|].
  destruct (p =? "high_quality"); [left | right]; split; reflexivity.
Qed.

Lemma routing_table_distinct (p : string) :
  fst (fst (routing_table p azure bedrock))
  <> fst (snd (routing_table p azure bedrock)).
Proof.
  destruct (routing_table_providers p) as [[-> ->] | [-> ->]]; discriminate.
Qed.

Lemma choose_models_cases (req : GenerateRequest) :
  let t := routing_table (priority req) azure bedrock in
  choose_models req azure bedrock = t
  \/ choose_models req azure bedrock = (snd t, fst t).
Proof.
  unfold choose_models.
  destruct (routing_table (priority req) azure bedrock) as [tp ts]; simpl.
  destruct (hint_is _ "azure" && _); [right; reflexivity|].
  destruct (hint_is _ "bedrock" && _); [right | left]; reflexivity.
Qed.

(** C9. For every request, whatever its priority and its provider hint,
    the primary selection returned by [choose_models] names a provider
    different from the one the secondary selection names. *)
Theorem choose_models_distinct_providers (req : GenerateRequest) :
  fst (fst (choose_models req azure bedrock))
  <> fst (snd (choose_models req azure bedrock)).
Proof.
  pose proof (routing_table_distinct (priority req)) as D.
  destruct (choose_models_cases req) as [-> | ->]; simpl.
  - exact D.
  - intro E. apply D. symmetry. exact E.
Qed.

(** C8. With [tp] and [ts] the primary and secondary of the routing
    table: a hint that is present, is a provider identifier and differs
    from [tp]'s provider swaps the two, so that the hinted provider is
    the primary and the other one stays as secondary; an absent hint,
    or one equal to [tp]'s provider, leaves the table order; and a hint
    equal to [ts]'s provider makes that provider the primary. *)
Theorem choose_models_hint (req : GenerateRequest) (tp ts : Selection) :
  routing_table (priority req) azure bedrock = (tp, ts) ->
  is_provider_hint (provider_hint req) = true ->
  (forall h, provider_hint req = Some h -> h <> fst tp ->
     choose_models req azure bedrock = (ts, tp) /\ fst ts = h)
  /\ (provider_hint req = None \/ provider_hint req = Some (fst tp) ->
      choose_models req azure bedrock = (tp, ts))
  /\ (provider_hint req = Some (fst ts) ->
      fst (fst (choose_models req azure bedrock)) = fst ts).
Proof.
  intros T V.
  pose proof (routing_table_providers (priority req)) as P.
  rewrite T in P; simpl in P.
  unfold choose_models; rewrite T.
  assert (K : forall h, provider_hint req = Some h ->
                        h = "azure" \/ h = "bedrock").
  { intros h Hh. rewrite Hh in V; simpl in V.
    apply orb_true_iff in V.
    destruct V as [V | V]; apply String.eqb_eq in V; auto. }
  destruct tp as [tpn tpm], ts as [tsn tsm]; simpl in *.
  destruct P as [[-> ->] | [-> ->]]; simpl; (split; [| split]).
  - intros h Hh Hne. destruct (K h Hh) as [-> | ->]; [| congruence].
    rewrite Hh; simpl. auto.
  - intros [Hn | Hs]; rewrite ?Hn, ?Hs; reflexivity.
  - intros Hs; rewrite Hs; reflexivity.
  - intros h Hh Hne. destruct (K h Hh) as [-> | ->]; [congruence |].
    rewrite Hh; simpl. auto.
  - intros [Hn | Hs]; rewrite ?Hn, ?Hs; reflexivity.
  - intros Hs; rewrite Hs; reflexivity.
Qed.

(** C5. At a request with priority low_cost and no provider hint the
    code selects Bedrock as primary and Azure as secondary, each with
    its low-cost model, although Azure has the lower unit prices in the
    default pricing (and the comment above the routing table announces
    Azure first). *)
Theorem low_cost_selects_bedrock_first :
  choose_models (Sample.request "hello" "low_cost" None) azure bedrock
  = (("bedrock", model_low_cost bedrock), ("azure", deployment_low_cost azure))
  /\ (azure_cost_per_1k_input_usd default_app_config
      < bedrock_cost_per_1k_input_usd default_app_config)%Q
  /\ (azure_cost_per_1k_output_usd default_app_config
      < bedrock_cost_per_1k_output_usd default_app_config)%Q.
Proof.
  split; [reflexivity | split; reflexivity].
Qed.

(** What [choose_models] does with a hint that names no provider: the
    table order is kept. *)
Lemma choose_models_unknown_hint (req : GenerateRequest) (h : string) :
  provider_hint req = Some h -> h <> "azure" -> h <> "bedrock" ->
  choose_models req azure bedrock = routing_table (priority req) azure bedrock.
Proof.
  intros Hh Na Nb. unfold choose_models.
  destruct (routing_table (priority req) azure bedrock) as [tp ts].
  rewrite Hh; simpl.
  apply String.eqb_neq in Na, Nb. rewrite Na, Nb. reflexivity.
Qed.

End Routing.

Lemma choose_models_hint_witness :
  let req := Sample.request "hello" "low_cost" (Some "azure") in
  routing_table (priority req) Sample.azure_cfg Sample.bedrock_cfg
  = (("bedrock", "anthropic.claude-3-haiku"), ("azure", "gpt-4o-mini"))
  /\ is_provider_hint (provider_hint req) = true
  /\ choose_models req Sample.azure_cfg Sample.bedrock_cfg
     = (("azure", "gpt-4o-mini"), ("bedrock", "anthropic.claude-3-haiku")).
Proof.
  split; [reflexivity | split; [reflexivity |]].
  destruct (choose_models_hint Sample.azure_cfg Sample.bedrock_cfg
              (Sample.request "hello" "low_cost" (Some "azure"))
              ("bedrock", "anthropic.claude-3-haiku") ("azure", "gpt-4o-mini")
              eq_refl eq_refl) as [H _].
  apply (H "azure" eq_refl). discriminate.
Defined.

(** ** Cost estimator *)

Section CostEstimator.

Local Open Scope Q_scope.

Lemma int_of_float_quarter (n : Z) :
  (0 <= n)%Z ->
  Py.int_of_float (Py.float_of_int n / Py.float_of_int 4) = (n / 4)%Z.
Proof.
  intros Hn. unfold Py.int_of_float, Py.float_of_int.
  change (inject_Z n / inject_Z 4) with ((n * 1)%Z # 4).
  cbn [Qnum Qden]. rewrite Z.mul_1_r.
  apply Z.quot_div_nonneg; lia.
Qed.

Lemma est_tokens_tokens (text : string) :
  est_tokens text = CostSpec.tokens (Py.len text).
Proof.
  unfold est_tokens, CostSpec.tokens, Py.len.
  destruct text as [| c text]; [reflexivity |].
  cbn [Py.not_str String.length].
  destruct (Z.eqb_spec (Z.of_nat (S (String.length text))) 0) as [E | _];
    [lia |].
  rewrite int_of_float_quarter by lia. reflexivity.
Qed.















End CostEstimator.




(** ** Generation orchestrator *)

Section Orchestrator.

Variable app_cfg : AppConfig.
Variable azure_cfg : AzureConfig.
Variable bedrock_cfg : BedrockConfig.
Variable req : GenerateRequest.
Variable azure_provider : LLMProvider.
Variable bedrock_provider : LLMProvider.
Variable rid : string.

Local Abbreviation run :=
  (run_generation app_cfg azure_cfg bedrock_cfg req azure_provider
     bedrock_provider rid).
Local Abbreviation primary := (primary_selection azure_cfg bedrock_cfg req).
Local Abbreviation secondary := (secondary_selection azure_cfg bedrock_cfg req).
Local Abbreviation attempt1 :=
  (primary_attempt app_cfg azure_cfg bedrock_cfg req azure_provider
     bedrock_provider rid).
Local Abbreviation attempt2 :=
  (secondary_attempt app_cfg azure_cfg bedrock_cfg req azure_provider
     bedrock_provider rid).
Local Abbreviation invocation1 :=
  (primary_invocation app_cfg azure_cfg bedrock_cfg req azure_provider
     bedrock_provider).
Local Abbreviation invocation2 :=
  (secondary_invocation app_cfg azure_cfg bedrock_cfg req azure_provider
     bedrock_provider).
Local Abbreviation fallback_world :=
  (world_at_fallback app_cfg azure_cfg bedrock_cfg req azure_provider
     bedrock_provider rid).
Local Abbreviation record_failure := (log_failure app_cfg req rid).
Local Abbreviation attempt sp sel :=
  (call app_cfg req azure_provider bedrock_provider rid sp (fst sel) (snd sel)).
Local Abbreviation invocation sp sel :=
  (invoke app_cfg req azure_provider bedrock_provider sp (fst sel) (snd sel)).
Local Abbreviation logging := (enable_request_logging app_cfg).

(** *** The control flow of [run_generation], one case per path *)

Lemma run_generation_paths (w : World) :
  run w =
  match attempt1 w with
  | (Return pr, w1) => (Return (result_of rid pr false), w1)
  | (Raise e1, w1) =>
      match record_failure primary e1 w1 with
      | (Raise e, w2) => (Raise e, w2)
      | (Return _, w2) =>
          match attempt2 w2 with
          | (Return sr, w3) => (Return (result_of rid sr true), w3)
          | (Raise e2, w3) =>
              match record_failure secondary e2 w3 with
              | (Raise e, w4) => (Raise e, w4)
              | (Return _, w4) =>
                  (Raise (RuntimeError (both_failed_message e1 e2)), w4)
              end
          end
      end
  end.
Proof.
  unfold run_generation, primary_attempt, secondary_attempt,
    primary_selection, secondary_selection.
  destruct (choose_models req azure_cfg bedrock_cfg) as [p s].
  cbn [fst snd].
  unfold bind at 1. unfold try_except at 1. unfold bind at 1.
  destruct (call _ _ _ _ _ _ (fst p) (snd p) w) as [[pr | e1] w1];
    [reflexivity |].
  unfold bind at 1.
  destruct (log_failure app_cfg req rid p e1 w1) as [[[] | e] w2];
    [| reflexivity].
  unfold try_except at 1. unfold bind at 1.
  destruct (call _ _ _ _ _ _ (fst s) (snd s) w2) as [[sr | e2] w3];
    [reflexivity |].
  unfold bind at 1.
  destruct (log_failure app_cfg req rid s e2 w3) as [[[] | e] w4];
    reflexivity.
Qed.

(** *** The usage logger *)

Lemma log_commits (provider model tsk prio : string) (est : CostEstimate)
    (lat : Z) (success : bool) (err : option string) (w : World) :
  next_insert_commits w = true ->
  exists row,
    UsageLogger_log rid provider model tsk prio est lat success err w
    = (Return tt,
       {| usage_logs := usage_logs w ++ [row];
          sqlite_faults := tl (sqlite_faults w);
          clock := clock w |})
    /\ row_request_id row = rid
    /\ row_provider row = provider
    /\ row_success row = (if success then 1 else 0).
Proof.
  unfold next_insert_commits, UsageLogger_log. intros C.
  destruct (sqlite_faults w) as [| [e |] script]; try discriminate;
    eexists; (split; [reflexivity | auto]).
Qed.




(** *** One attempt: the inner function [call] *)

Lemma call_paths (sp : string) (sel : Selection) (w : World) :
  attempt sp sel w =
  match invocation sp sel with
  | Raise e => (Raise e, w)
  | Return x =>
      if logging then
        match UsageLogger_log rid (fst sel) (snd sel) (task req) (priority req)
                (snd x) (res_latency_ms (fst x)) true None w with
        | (Return _, w') => (Return (response_of sel x), w')
        | (Raise e, w') => (Raise e, w')
        end
      else (Return (response_of sel x), w)
  end.
Proof.
  unfold call, bind, lift, when, ret.
  destruct (invoke _ _ _ _ sp (fst sel) (snd sel)) as [[result est] | e];
    [| reflexivity].
  cbn [fst snd]. destruct logging; [| reflexivity].
  destruct (UsageLogger_log _ _ _ _ _ _ _ _ _ w) as [[[] | e] w'];
    reflexivity.
Qed.

(** With request logging disabled an attempt is its invocation and leaves
    the world as it found it. *)
Lemma call_without_logging (sp : string) (sel : Selection) (w : World) :
  logging = false ->
  attempt sp sel w =
  match invocation sp sel with
  | Raise e => (Raise e, w)
  | Return x => (Return (response_of sel x), w)
  end.
Proof.
  intros L. rewrite call_paths, L. reflexivity.
Qed.

(** When the next insert commits, an attempt with logging enabled is its
    invocation followed by one success row. *)
Lemma call_with_commit (sp : string) (sel : Selection) (w : World) :
  logging = true -> next_insert_commits w = true ->
  match invocation sp sel with
  | Raise e =>
      attempt sp sel w
      = (Raise e, w)
  | Return x =>
      exists row,
        attempt sp sel w
        = (Return (response_of sel x),
           {| usage_logs := usage_logs w ++ [row];
              sqlite_faults := tl (sqlite_faults w);
              clock := clock w |})
        /\ row_request_id row = rid
        /\ row_provider row = fst sel
        /\ row_success row = 1
  end.
Proof.
  intros L C. rewrite call_paths, L.
  destruct (invoke _ _ _ _ sp (fst sel) (snd sel)) as [x | e]; [| reflexivity].
  destruct (log_commits (fst sel) (snd sel) (task req) (priority req) (snd x)
              (res_latency_ms (fst x)) true None w C) as (row & E & R).
  exists row. rewrite E. split; [reflexivity | exact R].
Qed.

Lemma record_failure_without_logging (sel : Selection) (e : PyExc) (w : World) :
  logging = false -> record_failure sel e w = (Return tt, w).
Proof.
  intros L. unfold log_failure, when. rewrite L. reflexivity.
Qed.


(** *** Runs whose usage records are all written, or none *)

Lemma run_without_logging (w : World) :
  logging = false ->
  run w =
  (match invocation1 with
   | Return x => Return (result_of rid (response_of primary x) false)
   | Raise e1 =>
       match invocation2 with
       | Return x => Return (result_of rid (response_of secondary x) true)
       | Raise e2 => Raise (RuntimeError (both_failed_message e1 e2))
       end
   end, w).
Proof.
  intros L. rewrite run_generation_paths.
  unfold primary_attempt, secondary_attempt, primary_invocation,
    secondary_invocation.
  rewrite (call_without_logging _ primary w L).
  destruct (invoke _ _ _ _ _ (fst primary) (snd primary)) as [x | e1];
    [reflexivity |].
  rewrite (record_failure_without_logging primary e1 w L).
  rewrite (call_without_logging _ secondary w L).
  destruct (invoke _ _ _ _ _ (fst secondary) (snd secondary)) as [x | e2];
    [reflexivity |].
  rewrite (record_failure_without_logging secondary e2 w L). reflexivity.
Qed.



(** An attempt whose usage record is written, or not asked for, fails
    exactly when the provider invocation fails. *)
Lemma attempt_fails_iff_invocation_fails (sp : string) (sel : Selection)
    (w : World) :
  logging = false \/ next_insert_commits w = true ->
  failed (attempt sp sel) w
  <-> exists e,
        invocation sp sel
        = Raise e.
Proof.
  intros Q. unfold failed.
  assert (E : call app_cfg req azure_provider bedrock_provider rid sp
                (fst sel) (snd sel) w
              = match invoke app_cfg req azure_provider bedrock_provider sp
                        (fst sel) (snd sel) with
                | Raise e => (Raise e, w)
                | Return x =>
                    (Return (response_of sel x),
                     snd (call app_cfg req azure_provider bedrock_provider rid
                            sp (fst sel) (snd sel) w))
                end).
  { destruct logging eqn:L.
    - destruct Q as [Q | Q]; [discriminate |].
      pose proof (call_with_commit sp sel w L Q) as A.
      destruct (invoke _ _ _ _ sp (fst sel) (snd sel)) as [x | e]; [| exact A].
      destruct A as (row & -> & _). reflexivity.
    - rewrite (call_without_logging sp sel w L).
      destruct (invoke _ _ _ _ sp (fst sel) (snd sel)); reflexivity. }
  rewrite E.
  destruct (invoke _ _ _ _ sp (fst sel) (snd sel)) as [x | e]; split.
  - intros (e & w' & H). discriminate.
  - intros (e & H). discriminate.
  - intros _. exists e. reflexivity.
  - intros _. exists e, w. reflexivity.
Qed.

(** *** The claims on [run_generation] *)




(** C6, amended. For every run in which the primary attempt fails, a
    returned result has an [attempts] list of length 1, holding the
    secondary's response alone; and when the secondary attempt fails as
    well no result is returned: the run raises. *)
Theorem attempts_after_fallback (w : World) :
  failed attempt1 w ->
  (forall r w', run w = (Return r, w') ->
     exists sr w3,
       attempt2 (fallback_world w) = (Return sr, w3)
       /\ attempts r = [sr] /\ length (attempts r) = 1%nat)
  /\ (failed attempt2 (fallback_world w) -> exists e, fst (run w) = Raise e).
Proof.
  unfold world_at_fallback, failed. intros (e1 & w1 & F).
  rewrite run_generation_paths, F.
  destruct (record_failure primary e1 w1) as [[[] | e] w2]; cbn [snd].
  - destruct (attempt2 w2) as [[sr | e2] w3].
    + split.
      * intros r w' H. injection H as <- <-. exists sr, w3. auto.
      * intros (e & v & H). discriminate.
    + split.
      * destruct (record_failure secondary e2 w3) as [[[] | e] w4];
          discriminate.
      * intros _.
        destruct (record_failure secondary e2 w3) as [[[] | e] w4];
          cbn [fst]; eauto.
  - split; [discriminate | cbn [fst]; eauto].
Qed.


End Orchestrator.

(** ** Concrete runs *)






(** C6 as stated fails: the primary attempt fails, the secondary one
    succeeds, and the [attempts] list of the result has length 1. *)
Lemma one_attempt_listed_after_fallback :
  failed
    (primary_attempt default_app_config Sample.azure_cfg Sample.bedrock_cfg
       Sample.hello Sample.azure_up Sample.bedrock_down "7d9f2c1e")
    (Sample.world [])
  /\ exists r,
       fst (Sample.run Sample.azure_up Sample.bedrock_down []) = Return r
       /\ fallback_used r = true
       /\ length (attempts r) = 1%nat
       /\ length (attempts r) <> 2%nat.
Proof.
  split.
  - eexists. eexists. vm_compute. reflexivity.
  - eexists. split; [vm_compute; reflexivity |].
    split; [reflexivity | split; [reflexivity | discriminate]].
Qed.

Lemma attempts_after_fallback_witness :
  failed
    (primary_attempt default_app_config Sample.azure_cfg Sample.bedrock_cfg
       Sample.hello Sample.azure_up Sample.bedrock_down "7d9f2c1e")
    (Sample.world [])
  /\ exists r w',
       Sample.run Sample.azure_up Sample.bedrock_down [] = (Return r, w')
       /\ length (attempts r) = 1%nat.
Proof.
  assert (F : failed
                (primary_attempt default_app_config Sample.azure_cfg
                   Sample.bedrock_cfg Sample.hello Sample.azure_up
                   Sample.bedrock_down "7d9f2c1e")
                (Sample.world [])).
  { eexists. eexists. vm_compute. reflexivity. }
  split; [exact F |].
  eexists. eexists.
  match goal with
  | |- ?E /\ _ => assert (H : E) by (vm_compute; reflexivity)
  end.
  split; [exact H |].
  destruct (proj1 (attempts_after_fallback default_app_config Sample.azure_cfg
                     Sample.bedrock_cfg Sample.hello Sample.azure_up
                     Sample.bedrock_down "7d9f2c1e" (Sample.world []) F)
              _ _ H) as (sr & w3 & _ & _ & L).
  exact L.
Defined.



(** * Further properties of the code *)

(** ** Strings *)

Lemma slice_to_length (n : nat) (s : string) :
  (String.length (Py.slice_to n s) <= n)%nat.
Proof.
  unfold Py.slice_to. revert s.
  induction n as [| n IH]; intros [| c s]; simpl; try lia.
  specialize (IH s). lia.
Qed.

Lemma slice_to_short (n : nat) (s : string) :
  (String.length s <= n)%nat -> Py.slice_to n s = s.
Proof.
  unfold Py.slice_to. revert s.
  induction n as [| n IH]; intros [| c s]; simpl; intros L;
    try reflexivity; try lia.
  rewrite IH by lia. reflexivity.
Qed.

Lemma slice_to_prefix (n : nat) (s : string) :
  exists rest, s = Py.slice_to n s ++ rest.
Proof.
  unfold Py.slice_to. revert s.
  induction n as [| n IH]; intros [| c s]; simpl.
  - exists EmptyString. reflexivity.
  - exists (String c s). reflexivity.
  - exists EmptyString. reflexivity.
  - destruct (IH s) as [rest E]. exists rest. rewrite <- E. reflexivity.
Qed.

(** ** What a run writes *)

Section RunEffects.

Variable app_cfg : AppConfig.
Variable azure_cfg : AzureConfig.
Variable bedrock_cfg : BedrockConfig.
Variable req : GenerateRequest.
Variable azure_provider : LLMProvider.
Variable bedrock_provider : LLMProvider.
Variable rid : string.

Local Abbreviation run :=
  (run_generation app_cfg azure_cfg bedrock_cfg req azure_provider
     bedrock_provider rid).
Local Abbreviation primary := (primary_selection azure_cfg bedrock_cfg req).
Local Abbreviation secondary := (secondary_selection azure_cfg bedrock_cfg req).
Local Abbreviation attempt1 :=
  (primary_attempt app_cfg azure_cfg bedrock_cfg req azure_provider
     bedrock_provider rid).
Local Abbreviation attempt2 :=
  (secondary_attempt app_cfg azure_cfg bedrock_cfg req azure_provider
     bedrock_provider rid).
Local Abbreviation record_failure := (log_failure app_cfg req rid).
Local Abbreviation logging := (enable_request_logging app_cfg).
Local Abbreviation attempt sp sel :=
  (call app_cfg req azure_provider bedrock_provider rid sp (fst sel) (snd sel)).
Local Abbreviation invocation sp sel :=
  (invoke app_cfg req azure_provider bedrock_provider sp (fst sel) (snd sel)).
Local Abbreviation the_prompt := (build_system_prompt (task req)).

(** The row of a successful attempt on [sel] that answered [x]. *)
Local Abbreviation row_of_success now sel x :=
  (usage_row now rid (fst sel) (snd sel) (task req) (priority req) (snd x)
     (res_latency_ms (fst x)) true None).

(** The row of a failed attempt on [sel] that raised [e]. *)
Local Abbreviation row_of_failure now sel e :=
  (usage_row now rid (fst sel) (snd sel) (task req) (priority req)
     {| input_tokens_est := est_tokens (prompt req);
        output_tokens_est := 0;
        total_tokens_est := est_tokens (prompt req);
        cost_est_usd := 0 |}
     0 false (Some (Py.slice_to 500 (exc_str e)))).

Lemma appends_refl (w : World) : appends w w [].
Proof.
  unfold appends. rewrite app_nil_r. auto using incl_refl.
Qed.

Lemma appends_trans (w w1 w2 : World) (r1 r2 : list UsageRow) :
  appends w w1 r1 -> appends w1 w2 r2 -> appends w w2 (r1 ++ r2).
Proof.
  unfold appends. intros (U1 & C1 & F1) (U2 & C2 & F2).
  rewrite U2, U1, C2, C1, app_assoc.
  split; [reflexivity | split; [reflexivity |]].
  eapply incl_tran; eassumption.
Qed.

Lemma log_appends (provider model tsk prio : string) (est : CostEstimate)
    (lat : Z) (success : bool) (err : option string) (w : World) :
  let o := UsageLogger_log rid provider model tsk prio est lat success err w in
  (fst o = Return tt
   /\ appends w (snd o)
        [usage_row (clock w) rid provider model tsk prio est lat success err])
  \/ (exists e, fst o = Raise e /\ In (Some e) (sqlite_faults w)
                /\ appends w (snd o) []).
Proof.
  unfold UsageLogger_log, usage_row, appends.
  destruct (sqlite_faults w) as [| [e |] script]; cbn.
  - left. auto using incl_refl.
  - right. exists e. rewrite app_nil_r.
    repeat split; auto using in_eq, incl_tl, incl_refl.
  - left. repeat split; auto using incl_tl, incl_refl.
Qed.

Lemma attempt_appends (sel : Selection) (w : World) :
  match attempt the_prompt sel w with
  | (Return pr, w') =>
      exists x,
        invocation the_prompt sel = Return x
        /\ pr = response_of sel x
        /\ appends w w'
             (if logging then [row_of_success (clock w) sel x] else [])
  | (Raise e, w') =>
      appends w w' []
      /\ (invocation the_prompt sel = Raise e \/ In (Some e) (sqlite_faults w))
  end.
Proof.
  rewrite call_paths.
  destruct (invocation the_prompt sel) as [x | e].
  - destruct logging.
    + pose proof (log_appends (fst sel) (snd sel) (task req) (priority req)
                    (snd x) (res_latency_ms (fst x)) true None w) as L.
      cbv zeta in L.
      destruct (UsageLogger_log _ _ _ _ _ _ _ _ _ w) as [[[] | e] w'];
        cbn [fst snd] in L.
      * destruct L as [[_ A] | (e & E & _)]; [| discriminate].
        exists x. auto.
      * destruct L as [[E _] | (e' & E & I & A)]; [discriminate |].
        injection E as <-. auto.
    + exists x. auto using appends_refl.
  - auto using appends_refl.
Qed.

Lemma record_failure_appends (sel : Selection) (e : PyExc) (w : World) :
  match record_failure sel e w with
  | (Return _, w') =>
      appends w w' (if logging then [row_of_failure (clock w) sel e] else [])
  | (Raise e', w') => In (Some e') (sqlite_faults w) /\ appends w w' []
  end.
Proof.
  unfold log_failure, when. destruct logging.
  - pose proof (log_appends (fst sel) (snd sel) (task req) (priority req)
                  {| input_tokens_est := est_tokens (prompt req);
                     output_tokens_est := 0;
                     total_tokens_est := est_tokens (prompt req);
                     cost_est_usd := 0 |}
                  0 false (Some (Py.slice_to 500 (exc_str e))) w) as L.
    cbv zeta in L.
    destruct (UsageLogger_log _ _ _ _ _ _ _ _ _ w) as [[[] | e'] w'];
      cbn [fst snd] in L.
    + destruct L as [[_ A] | (e' & E & _)]; [exact A | discriminate].
    + destruct L as [[E _] | (e'' & E & I & A)]; [discriminate |].
      injection E as <-. auto.
  - unfold ret. apply appends_refl.
Qed.

(** Why an attempt on [sel] raised [e] in a run started in [w]: the
    provider invocation raised it, or an insert into the usage database
    did. *)
Local Abbreviation cause w sel e :=
  (invocation the_prompt sel = Raise e \/ In (Some e) (sqlite_faults w)).

Ltac conjs := repeat match goal with |- _ /\ _ => split end.

(** The five paths of a run, each with its outcome and the rows it
    appends. *)
Lemma run_trace (w : World) :
  (exists x,
     invocation the_prompt primary = Return x
     /\ fst (run w) = Return (result_of rid (response_of primary x) false)
     /\ appends w (snd (run w))
          (if logging then [row_of_success (clock w) primary x] else []))
  \/ (exists e1 e',
        cause w primary e1
        /\ In (Some e') (sqlite_faults w)
        /\ fst (run w) = Raise e'
        /\ appends w (snd (run w)) [])
  \/ (exists e1 x,
        cause w primary e1
        /\ invocation the_prompt secondary = Return x
        /\ fst (run w) = Return (result_of rid (response_of secondary x) true)
        /\ appends w (snd (run w))
             (if logging
              then [row_of_failure (clock w) primary e1;
                    row_of_success (clock w) secondary x]
              else []))
  \/ (exists e1 e2 e',
        cause w primary e1 /\ cause w secondary e2
        /\ In (Some e') (sqlite_faults w)
        /\ fst (run w) = Raise e'
        /\ appends w (snd (run w))
             (if logging then [row_of_failure (clock w) primary e1] else []))
  \/ (exists e1 e2,
        cause w primary e1 /\ cause w secondary e2
        /\ fst (run w) = Raise (RuntimeError (both_failed_message e1 e2))
        /\ appends w (snd (run w))
             (if logging
              then [row_of_failure (clock w) primary e1;
                    row_of_failure (clock w) secondary e2]
              else [])).
Proof.
  rewrite run_generation_paths. unfold primary_attempt, secondary_attempt.
  pose proof (attempt_appends primary w) as A1.
  destruct (attempt the_prompt primary w) as [[pr | e1] w1].
  { destruct A1 as (x & I & -> & A). left. exists x. auto. }
  destruct A1 as [A1 C1]. right.
  assert (K1 : clock w1 = clock w) by apply A1.
  pose proof (record_failure_appends primary e1 w1) as F1.
  destruct (record_failure primary e1 w1) as [[[] | e'] w2].
  2:{ destruct F1 as [I F1]. left. exists e1, e'.
      pose proof (appends_trans _ _ _ _ _ A1 F1) as T.
      assert (S : incl (sqlite_faults w1) (sqlite_faults w)) by apply A1.
      conjs; auto. }
  right. rewrite K1 in F1.
  pose proof (appends_trans _ _ _ _ _ A1 F1) as T1. cbn [app] in T1.
  assert (S2 : incl (sqlite_faults w2) (sqlite_faults w)) by apply T1.
  assert (K2 : clock w2 = clock w) by apply T1.
  pose proof (attempt_appends secondary w2) as A2.
  destruct (attempt the_prompt secondary w2) as [[sr | e2] w3].
  { destruct A2 as (x & I & -> & A2). left. exists e1, x.
    rewrite K2 in A2.
    pose proof (appends_trans _ _ _ _ _ T1 A2) as T2.
    conjs; auto. cbn [snd]. destruct logging; exact T2. }
  destruct A2 as [A2 C2]. right.
  assert (C2' : cause w secondary e2) by (destruct C2; auto).
  pose proof (appends_trans _ _ _ _ _ T1 A2) as T2. rewrite app_nil_r in T2.
  assert (S3 : incl (sqlite_faults w3) (sqlite_faults w)) by apply T2.
  assert (K3 : clock w3 = clock w) by apply T2.
  pose proof (record_failure_appends secondary e2 w3) as F2.
  destruct (record_failure secondary e2 w3) as [[[] | e'] w4].
  - right. exists e1, e2. rewrite K3 in F2.
    pose proof (appends_trans _ _ _ _ _ T2 F2) as T3.
    conjs; auto. cbn [snd]. destruct logging; exact T3.
  - destruct F2 as [I F2]. left. exists e1, e2, e'.
    pose proof (appends_trans _ _ _ _ _ T2 F2) as T3. rewrite app_nil_r in T3.
    conjs; auto.
Qed.


(** X2. Every row a run appends is a success row without error text, or a
    failure row: zero latency, zero output tokens, zero cost, the input
    token estimate of the prompt, and an error text of at most 500
    characters. *)
Theorem appended_rows_are_success_or_failure_rows (w : World) :
  exists rows,
    usage_logs (snd (run w)) = (usage_logs w ++ rows)%list
    /\ Forall (fun row => success_row row \/ failure_row (prompt req) row)
         rows.
Proof.
  assert (F : forall now sel e,
             failure_row (prompt req) (row_of_failure now sel e)).
  { intros now sel e. unfold failure_row, usage_row.
    cbn [row_success row_latency_ms row_input_tokens_est
         row_output_tokens_est row_total_tokens_est row_cost_est_usd
         row_error input_tokens_est output_tokens_est total_tokens_est
         cost_est_usd].
    conjs; try reflexivity.
    eexists. split; [reflexivity | apply slice_to_length]. }
  assert (S : forall now sel x, success_row (row_of_success now sel x)).
  { intros now sel x. split; reflexivity. }
  destruct (run_trace w)
    as [(x & _ & _ & A) | [(e1 & e' & _ & _ & _ & A)
       | [(e1 & x & _ & _ & _ & A) | [(e1 & e2 & e' & _ & _ & _ & _ & A)
       | (e1 & e2 & _ & _ & _ & A)]]]];
    destruct A as (U & _ & _); eexists; (split; [exact U |]);
    destruct logging; repeat (apply Forall_cons || apply Forall_nil); auto.
Qed.

(** X3. With request logging disabled a run neither writes to the usage
    database nor depends on it: the world is left as it was found, and the
    outcome is the same in every world. *)
Theorem disabled_logging_never_touches_database (w w' : World) :
  logging = false ->
  snd (run w) = w /\ fst (run w) = fst (run w').
Proof.
  intros L. rewrite !(run_without_logging _ _ _ _ _ _ _ _ L). auto.
Qed.

(** X4. A returned result is coherent: its [attempts] list is the single
    response it was built from, provider, model, text and latency of the
    result are those of this response, the request identifier is the one
    of the run, and the response answers the primary selection when
    [fallback_used] is false and the secondary selection when it is
    true. *)
Theorem returned_result_is_coherent (w w' : World) (r : GenerateResponse) :
  run w = (Return r, w') ->
  exists pr,
    attempts r = [pr]
    /\ chosen_provider r = pr_provider pr
    /\ chosen_model r = pr_model pr
    /\ text r = pr_text pr
    /\ latency_ms r = pr_latency_ms pr
    /\ request_id r = rid
    /\ (pr_provider pr, pr_model pr)
       = (if fallback_used r then secondary else primary).
Proof.
  intros H.
  assert (E : fst (run w) = Return r) by (rewrite H; reflexivity).
  destruct (run_trace w)
    as [(x & _ & O & _) | [(e1 & e' & _ & _ & O & _)
       | [(e1 & x & _ & _ & O & _) | [(e1 & e2 & e' & _ & _ & _ & O & _)
       | (e1 & e2 & _ & _ & O & _)]]]];
    rewrite O in E; try discriminate; injection E as <-;
    eexists; cbn; conjs; try reflexivity.
  - destruct primary; reflexivity.
  - destruct secondary; reflexivity.
Qed.


(** X6. The usage record agrees with the response: when request logging is
    enabled and a result is returned, the last row of the usage database
    is the success row of the chosen response, with the same request
    identifier, provider, model, latency, token estimates and cost. *)
Theorem last_usage_row_matches_result (w w' : World) (r : GenerateResponse) :
  logging = true ->
  run w = (Return r, w') ->
  exists before row pr,
    usage_logs w' = (before ++ [row])%list
    /\ attempts r = [pr]
    /\ row_success row = 1
    /\ row_request_id row = request_id r
    /\ row_provider row = chosen_provider r
    /\ row_model row = chosen_model r
    /\ row_latency_ms row = latency_ms r
    /\ row_input_tokens_est row = pu_input_tokens_est (pr_usage pr)
    /\ row_output_tokens_est row = pu_output_tokens_est (pr_usage pr)
    /\ row_total_tokens_est row = pu_total_tokens_est (pr_usage pr)
    /\ row_cost_est_usd row = pu_cost_est_usd (pr_usage pr).
Proof.
  intros L H.
  assert (E : fst (run w) = Return r) by (rewrite H; reflexivity).
  assert (W : snd (run w) = w') by (rewrite H; reflexivity).
  destruct (run_trace w)
    as [(x & _ & O & A) | [(e1 & e' & _ & _ & O & _)
       | [(e1 & x & _ & _ & O & A) | [(e1 & e2 & e' & _ & _ & _ & O & _)
       | (e1 & e2 & _ & _ & O & _)]]]];
    rewrite O in E; try discriminate; injection E as <-;
    rewrite L, W in A; destruct A as (U & _ & _).
  - exists (usage_logs w), (row_of_success (clock w) primary x),
      (response_of primary x).
    split; [exact U |]. cbn. conjs; reflexivity.
  - exists (usage_logs w ++ [row_of_failure (clock w) primary e1])%list,
      (row_of_success (clock w) secondary x), (response_of secondary x).
    split; [rewrite U, <- app_assoc; reflexivity |]. cbn. conjs; reflexivity.
Qed.

End RunEffects.

(** ** Providers and hints in a run *)

Section RunProviders.

Variable app_cfg : AppConfig.
Variable azure_cfg : AzureConfig.
Variable bedrock_cfg : BedrockConfig.
Variable req : GenerateRequest.
Variable rid : string.

Local Abbreviation primary := (primary_selection azure_cfg bedrock_cfg req).
Local Abbreviation secondary := (secondary_selection azure_cfg bedrock_cfg req).

Lemma call_uses_named_provider (azure bedrock other : LLMProvider)
    (sp name model : string) (w : World) :
  (name = "azure" ->
   call app_cfg req azure other rid sp name model w
   = call app_cfg req azure bedrock rid sp name model w)
  /\ (name <> "azure" ->
      call app_cfg req other bedrock rid sp name model w
      = call app_cfg req azure bedrock rid sp name model w).
Proof.
  split; intros N.
  - subst name.
    rewrite (call_paths app_cfg req azure other rid sp ("azure", model)),
      (call_paths app_cfg req azure bedrock rid sp ("azure", model)).
    reflexivity.
  - apply String.eqb_neq in N.
    rewrite (call_paths app_cfg req other bedrock rid sp (name, model)),
      (call_paths app_cfg req azure bedrock rid sp (name, model)).
    unfold invoke; cbn [fst snd]. rewrite N. reflexivity.
Qed.

(** X7. The secondary provider is not called while the primary attempt
    succeeds: the run, outcome and world, is the same whatever provider
    stands in the other slot. *)
Theorem secondary_provider_idle_when_primary_succeeds
    (azure bedrock other : LLMProvider) (w : World) :
  succeeded
    (primary_attempt app_cfg azure_cfg bedrock_cfg req azure bedrock rid) w ->
  (fst primary = "azure" ->
   run_generation app_cfg azure_cfg bedrock_cfg req azure other rid w
   = run_generation app_cfg azure_cfg bedrock_cfg req azure bedrock rid w)
  /\ (fst primary <> "azure" ->
      run_generation app_cfg azure_cfg bedrock_cfg req other bedrock rid w
      = run_generation app_cfg azure_cfg bedrock_cfg req azure bedrock rid w).
Proof.
  intros (pr & w1 & S). rewrite !run_generation_paths.
  unfold primary_attempt in *.
  destruct (call_uses_named_provider azure bedrock other
              (build_system_prompt (task req)) (fst primary) (snd primary) w)
    as [A B].
  split; intros N.
  - rewrite (A N), S. reflexivity.
  - rewrite (B N), S. reflexivity.
Qed.

Lemma hinted_provider_is_primary (h : string) :
  provider_hint req = Some h ->
  is_provider_hint (provider_hint req) = true ->
  fst primary = h.
Proof.
  intros H V. rewrite H in V; simpl in V.
  unfold primary_selection, choose_models. rewrite H.
  pose proof (routing_table_providers azure_cfg bedrock_cfg (priority req)) as P.
  destruct (routing_table (priority req) azure_cfg bedrock_cfg)
    as [[tpn tpm] [tsn tsm]]; simpl in *.
  apply orb_true_iff in V.
  destruct V as [V | V]; apply String.eqb_eq in V; subst h;
    destruct P as [[-> ->] | [-> ->]]; reflexivity.
Qed.

(** X8. A provider hint is honoured and advisory: with a hint naming a
    provider, that provider is the primary selection, a result returned
    without fallback comes from the hinted provider, and a result
    returned after a fallback comes from the other one. *)
Theorem hinted_provider_first_other_as_fallback
    (azure bedrock : LLMProvider) (h : string) (w w' : World)
    (r : GenerateResponse) :
  provider_hint req = Some h ->
  is_provider_hint (provider_hint req) = true ->
  run_generation app_cfg azure_cfg bedrock_cfg req azure bedrock rid w
  = (Return r, w') ->
  fst primary = h
  /\ (fallback_used r = false -> chosen_provider r = h)
  /\ (fallback_used r = true -> chosen_provider r <> h).
Proof.
  intros H V E.
  pose proof (hinted_provider_is_primary h H V) as P.
  pose proof (routing_table_distinct azure_cfg bedrock_cfg (priority req)) as D.
  assert (N : fst secondary <> fst primary).
  { unfold primary_selection, secondary_selection.
    destruct (choose_models_cases azure_cfg bedrock_cfg req) as [-> | ->];
      cbn [fst snd]; congruence. }
  split; [exact P |].
  rewrite run_generation_paths in E.
  destruct (primary_attempt _ _ _ _ _ _ _ w) as [[pr | e1] w1] eqn:A1.
  - injection E as <- <-. cbn. split; [| discriminate]. intros _.
    unfold primary_attempt in A1. rewrite call_paths in A1.
    destruct (invoke _ _ _ _ _ _ _) as [x | e]; [| discriminate].
    destruct (enable_request_logging app_cfg);
      [destruct (UsageLogger_log _ _ _ _ _ _ _ _ _ w) as [[[] | e] w2] |];
      try discriminate; injection A1 as <- _; exact P.
  - destruct (log_failure _ _ _ _ e1 w1) as [[[] | e] w2]; [| discriminate].
    destruct (secondary_attempt _ _ _ _ _ _ _ w2) as [[sr | e2] w3] eqn:A2.
    + injection E as <- <-. cbn. split; [discriminate |]. intros _.
      unfold secondary_attempt in A2. rewrite call_paths in A2.
      destruct (invoke _ _ _ _ _ _ _) as [x | e]; [| discriminate].
      destruct (enable_request_logging app_cfg);
        [destruct (UsageLogger_log _ _ _ _ _ _ _ _ _ w2) as [[[] | e] w4] |];
        try discriminate; injection A2 as <- _; cbn; congruence.
    + destruct (log_failure _ _ _ _ e2 w3) as [[[] | e] w4]; discriminate.
Qed.

End RunProviders.

(** ** More on the routing policy *)

Section RoutingTiers.

Variable azure : AzureConfig.
Variable bedrock : BedrockConfig.

(** X9. Whatever the priority and the hint, the two selections are the
    Bedrock selection with the Bedrock model of the request's tier and the
    Azure selection with the Azure deployment of the same tier, in one
    order or the other: a swap never pairs a provider with a model of the
    other provider or of another tier.  A priority that is neither
    low_cost nor high_quality is served from the low-latency tier. *)
Theorem selections_keep_provider_with_its_model (req : GenerateRequest) :
  let b := ("bedrock", bedrock_model_for (priority req) bedrock) in
  let a := ("azure", azure_deployment_for (priority req) azure) in
  (choose_models req azure bedrock = (b, a)
   \/ choose_models req azure bedrock = (a, b))
  /\ (priority req <> "low_cost" -> priority req <> "high_quality" ->
      snd a = deployment_low_latency azure
      /\ snd b = model_low_latency bedrock
      /\ routing_table (priority req) azure bedrock = (a, b)).
Proof.
  cbv zeta. split.
  - destruct (choose_models_cases azure bedrock req) as [-> | ->];
      unfold routing_table, bedrock_model_for, azure_deployment_for;
      destruct (priority req =? "low_cost");
      [| destruct (priority req =? "high_quality") | |
       destruct (priority req =? "high_quality")]; cbn; auto.
  - intros N1 N2. apply String.eqb_neq in N1, N2.
    unfold routing_table, bedrock_model_for, azure_deployment_for.
    rewrite N1, N2. auto.
Qed.

(** X10. A hint that names neither "azure" nor "bedrock" is ignored: the
    selections are those of the routing table, the same as for the
    request without the hint. *)
Theorem unrecognised_hint_is_ignored (req : GenerateRequest) (h : string) :
  provider_hint req = Some h -> h <> "azure" -> h <> "bedrock" ->
  choose_models req azure bedrock = routing_table (priority req) azure bedrock
  /\ choose_models req azure bedrock
     = choose_models
         {| prompt := prompt req; task := task req; priority := priority req;
            max_output_tokens := max_output_tokens req;
            temperature := temperature req; top_p := top_p req;
            provider_hint := None; metadata := metadata req |}
         azure bedrock.
Proof.
  intros H Na Nb.
  rewrite (choose_models_unknown_hint azure bedrock req h H Na Nb).
  split; [reflexivity |].
  unfold choose_models. cbn [priority provider_hint hint_is andb].
  destruct (routing_table (priority req) azure bedrock). reflexivity.
Qed.

End RoutingTiers.

(** ** System prompt *)

Lemma dict_get_missing (d : list (string * string)) (key default : string) :
  ~ In key (map fst d) -> dict_get d key default = default.
Proof.
  induction d as [| [k v] d IH]; simpl; intros N; [reflexivity |].
  destruct (String.eqb_spec k key) as [E | _]; [tauto |].
  apply IH. tauto.
Qed.

(** X11. A task outside the six known ones gets the prompt of the task "chat";
    and every prompt is the fixed base instruction, a blank line and a
    line "Task: ...". *)
Theorem unknown_task_gets_chat_prompt (task : string) :
  (~ In task known_tasks ->
   build_system_prompt task = build_system_prompt "chat")
  /\ exists hint,
       build_system_prompt task
       = ("You are a helpful enterprise assistant. "
          ++ "Be concise, correct, and safe. "
          ++ "If the user requests sensitive personal data, refuse. "
          ++ "If uncertain, say you are uncertain and ask a short "
          ++ "clarifying question.")
         ++ newline ++ newline ++ "Task: " ++ hint.
Proof.
  split.
  - intros N. unfold build_system_prompt.
    rewrite dict_get_missing; [reflexivity | exact N].
  - eexists. unfold build_system_prompt. reflexivity.
Qed.

(** ** More on the cost estimator *)

Section CostBounds.

Local Open Scope Q_scope.

(** X12. The token estimate is zero for the empty text only, one for every
    other text of fewer than 8 characters, and from 4 characters on it is
    the length divided by 4, rounded down. *)
Theorem est_tokens_bounds (t : string) :
  (est_tokens t = 0%Z <-> t = EmptyString)
  /\ (t <> EmptyString -> (Py.len t < 8)%Z -> est_tokens t = 1%Z)
  /\ ((4 <= Py.len t)%Z ->
      (4 * est_tokens t <= Py.len t < 4 * est_tokens t + 4)%Z).
Proof.
  rewrite est_tokens_tokens. unfold CostSpec.tokens, Py.len.
  destruct t as [| c t]; cbn [String.length].
  - split; [split; reflexivity | split; [congruence | simpl; lia]].
  - set (n := Z.of_nat (S (String.length t))).
    assert (P : (0 < n)%Z) by (subst n; lia).
    destruct (Z.eqb_spec n 0) as [E | _]; [lia |].
    pose proof (Z.div_mod n 4 ltac:(lia)) as D.
    pose proof (Z.mod_pos_bound n 4 ltac:(lia)) as M.
    split; [split; [lia | discriminate] | split].
    + intros _ L. assert ((n / 4 <= 1)%Z) by lia. lia.
    + intros L. assert ((1 <= n / 4)%Z) by lia. lia.
Qed.


End CostBounds.

(** ** Configuration from the environment *)

Lemma all_space_lstrip (s : string) :
  PyStr.all_space (PyStr.lstrip s) = PyStr.all_space s.
Proof.
  induction s as [| c s IH]; [reflexivity |].
  cbn [PyStr.lstrip PyStr.all_space].
  destruct (PyStr.isspace c) eqn:E; [exact IH |].
  cbn [PyStr.all_space]. rewrite E. reflexivity.
Qed.

Lemma rstrip_empty_iff (s : string) :
  PyStr.rstrip s = EmptyString <-> PyStr.all_space s = true.
Proof.
  induction s as [| c s IH]; [split; reflexivity |].
  cbn [PyStr.rstrip PyStr.all_space].
  destruct (PyStr.rstrip s) as [| d r].
  - assert (A : PyStr.all_space s = true) by (apply IH; reflexivity).
    rewrite A, andb_true_r.
    destruct (PyStr.isspace c); split; congruence.
  - assert (A : PyStr.all_space s = false).
    { destruct (PyStr.all_space s); [| reflexivity].
      destruct IH as [_ IH]. discriminate IH. reflexivity. }
    rewrite A, andb_false_r. split; discriminate.
Qed.

Lemma strip_empty_eqb (s : string) :
  String.eqb (PyStr.strip s) EmptyString = PyStr.all_space s.
Proof.
  unfold PyStr.strip. rewrite <- (all_space_lstrip s).
  destruct (String.eqb_spec (PyStr.rstrip (PyStr.lstrip s)) EmptyString)
    as [E | N].
  - symmetry. apply rstrip_empty_iff. exact E.
  - destruct (PyStr.all_space (PyStr.lstrip s)) eqn:A; [| reflexivity].
    exfalso. apply N. apply rstrip_empty_iff. exact A.
Qed.

(** X14. A required variable raises exactly when it is unset without default
    or holds white space only, and the error names the variable; a
    variable that is set hides the default, so that a blank value raises
    even when a default is given; and a variable that is not required never
    raises. *)
Theorem get_env_raises_iff_required_and_blank (environ : Environ)
    (name : string) (default : option string) :
  _get_env environ name default true
  = match os_getenv environ name default with
    | Some s =>
        if PyStr.all_space s
        then Raise (ValueError ("Missing required environment variable: "
                                ++ name))
        else Return (Some s)
    | None =>
        Raise (ValueError ("Missing required environment variable: " ++ name))
    end
  /\ (forall v, In (name, v) environ ->
      exists v', os_getenv environ name default = Some v'
                 /\ os_getenv environ name None = Some v')
  /\ _get_env environ name default false
     = Return (os_getenv environ name default).
Proof.
  split; [| split].
  - unfold _get_env. cbn [andb].
    destruct (os_getenv environ name default) as [s |]; [| reflexivity].
    rewrite strip_empty_eqb. reflexivity.
  - induction environ as [| [k x] environ IH]; intros v I; [destruct I |].
    cbn [os_getenv]. destruct (String.eqb_spec k name) as [E | N].
    + eauto.
    + destruct I as [I | I]; [congruence | eauto].
  - reflexivity.
Qed.

Lemma env_required_unset_or_blank (environ : Environ) (name : string) :
  env_required environ name
  = if unset_or_blank environ name
    then Raise (ValueError ("Missing required environment variable: " ++ name))
    else Return match os_getenv environ name None with
                | Some s => s
                | None => EmptyString
                end.
Proof.
  unfold env_required, unset_or_blank, _get_env. cbn [andb].
  destruct (os_getenv environ name None) as [s |]; [| reflexivity].
  rewrite strip_empty_eqb. destruct (PyStr.all_space s); reflexivity.
Qed.

Lemma env_default_value (environ : Environ) (name default : string) :
  env_default environ name default
  = match os_getenv environ name None with
    | Some s => s
    | None => default
    end.
Proof.
  unfold env_default, _get_env. cbn [andb].
  induction environ as [| [k v] environ IH]; [reflexivity |].
  cbn [os_getenv]. destruct (k =? name); [reflexivity | exact IH].
Qed.

Section LoadConfigProperties.

Variable py_float : string -> Outcome Q.
Variable environ : Environ.

Local Abbreviation missing name :=
  (Raise (ValueError ("Missing required environment variable: " ++ name))).

(** X15. When the five numeric settings parse, [load_config] returns exactly
    when none of the nine required variables is unset or blank, and
    otherwise raises the [ValueError] that names the first of them, in
    the order it reads them, that is. *)
Theorem load_config_reports_first_missing_variable :
  Forall (fun nd => exists q,
            py_float (env_default environ (fst nd) (snd nd)) = Return q)
    float_variables ->
  match find (unset_or_blank environ) required_variables with
  | Some name => load_config py_float environ = missing name
  | None => exists cfg, load_config py_float environ = Return cfg
  end.
Proof.
  intros F. unfold float_variables in F.
  repeat match goal with
         | H : Forall _ (_ :: _) |- _ =>
             let q := fresh "q" in
             let E := fresh "E" in
             inversion_clear H as [| ? ? [q E] H']; cbn [fst snd] in E;
             rename H' into H
         end.
  unfold load_config.
  rewrite E, E0, E1, E2, E3. cbn [and_then].
  unfold required_variables. cbn [find].
  rewrite !env_required_unset_or_blank.
  repeat match goal with
         | |- context [unset_or_blank environ ?n] =>
             destruct (unset_or_blank environ n); cbn [and_then];
             [reflexivity |]
         end.
  eexists. reflexivity.
Qed.

(** X16. A numeric setting that does not parse makes [load_config] raise the
    error of [float] for the first such setting, whether or not required
    variables are missing: the numbers are read first. *)
Theorem load_config_parses_numbers_first (name default : string) :
  find (fun nd => raises (py_float (env_default environ (fst nd) (snd nd))))
    float_variables = Some (name, default) ->
  exists e,
    py_float (env_default environ name default) = Raise e
    /\ load_config py_float environ = Raise e.
Proof.
  unfold float_variables, load_config. cbn [find fst snd].
  repeat match goal with
         | |- context [raises (py_float ?s)] =>
             destruct (py_float s) as [? | e] eqn:?; cbn [raises and_then];
             [| intros H; injection H as <- <-; exists e; auto]
         end.
  discriminate.
Qed.

Ltac req n :=
  destruct (os_getenv environ n None) as [? |] eqn:?E;
  [match goal with
   | |- context [PyStr.all_space ?s] => destruct (PyStr.all_space s)
   end |];
  cbn [and_then]; try discriminate.

(** X17. With the optional variables unset and the literals of the defaults
    parsed as the numbers they denote, the application settings that
    [load_config] returns are [default_app_config], the API version is the
    default one, and the required settings are the values of their
    variables. *)
Theorem load_config_defaults (app : AppConfig) (azure : AzureConfig)
    (bedrock : BedrockConfig) :
  py_float "20" = Return 20%Q ->
  py_float "0.00015" = Return 0.00015%Q ->
  py_float "0.00060" = Return 0.00060%Q ->
  py_float "0.00025" = Return 0.00025%Q ->
  py_float "0.00125" = Return 0.00125%Q ->
  Forall (fun name => os_getenv environ name None = None)
    ["APP_ENV"; "LOG_DB_PATH"; "HARD_TIMEOUT_S"; "ENABLE_REQUEST_LOGGING";
     "AZURE_COST_PER_1K_INPUT_USD"; "AZURE_COST_PER_1K_OUTPUT_USD";
     "BEDROCK_COST_PER_1K_INPUT_USD"; "BEDROCK_COST_PER_1K_OUTPUT_USD";
     "AZURE_OPENAI_API_VERSION"] ->
  load_config py_float environ = Return (app, azure, bedrock) ->
  app = default_app_config
  /\ api_version azure = "2024-02-15-preview"
  /\ os_getenv environ "AZURE_OPENAI_ENDPOINT" None = Some (endpoint azure)
  /\ os_getenv environ "AZURE_DEPLOYMENT_LOW_COST" None
     = Some (deployment_low_cost azure)
  /\ os_getenv environ "AWS_REGION" None = Some (region bedrock)
  /\ os_getenv environ "BEDROCK_MODEL_LOW_COST" None
     = Some (model_low_cost bedrock).
Proof.
  intros F1 F2 F3 F4 F5 U.
  repeat match goal with
         | H : Forall _ (_ :: _) |- _ =>
             let E := fresh "U" in
             inversion_clear H as [| ? ? E H']; rename H' into H
         end.
  unfold load_config. rewrite !env_default_value.
  rewrite U0, U1, U2, U3, U4, U5, U6, U7, U8.
  rewrite F1, F2, F3, F4, F5. cbn [and_then].
  rewrite !env_required_unset_or_blank. unfold unset_or_blank.
  req "AZURE_OPENAI_ENDPOINT". req "AZURE_OPENAI_API_KEY".
  req "AZURE_DEPLOYMENT_LOW_COST". req "AZURE_DEPLOYMENT_HIGH_QUALITY".
  req "AZURE_DEPLOYMENT_LOW_LATENCY". req "AWS_REGION".
  req "BEDROCK_MODEL_LOW_COST". req "BEDROCK_MODEL_HIGH_QUALITY".
  req "BEDROCK_MODEL_LOW_LATENCY".
  intros H. injection H as <- <- <-. cbn. auto 10.
Qed.

End LoadConfigProperties.

(** ** The HTTP handler *)

(** X18. What a client of [POST /generate] can get: the result of the run, or
    an error of status 500 whose detail is the message naming both
    provider failures or the message of a usage database error; no other
    status is produced, and the message of a single provider failure is
    never the detail. *)
Theorem generate_answers_result_or_500 (app_cfg : AppConfig)
    (azure_cfg : AzureConfig) (bedrock_cfg : BedrockConfig)
    (azure bedrock : LLMProvider) (rid : string) (req : GenerateRequest)
    (w : World) :
  match fst (Main.generate app_cfg azure_cfg bedrock_cfg azure bedrock rid
               req w) with
  | inl r =>
      fst (run_generation app_cfg azure_cfg bedrock_cfg req azure bedrock
             rid w) = Return r
  | inr exc =>
      Main.status_code exc = 500
      /\ ((exists e1 e2,
             Main.detail exc
             = "Both providers failed. Primary: " ++ exc_str e1
               ++ "; Secondary: " ++ exc_str e2)
          \/ (exists e, In (Some e) (sqlite_faults w)
                        /\ Main.detail exc = exc_str e))
  end.
Proof.
  unfold Main.generate.
  pose proof (run_trace app_cfg azure_cfg bedrock_cfg req azure bedrock rid w)
    as T.
  destruct (run_generation app_cfg azure_cfg bedrock_cfg req azure bedrock
              rid w) as [[r | e] w']; cbn [fst snd] in *; [reflexivity |].
  split; [reflexivity |]. cbn [Main.detail].
  destruct T
    as [(x & _ & O & _) | [(e1 & e' & _ & I & O & _)
       | [(e1 & x & _ & _ & O & _) | [(e1 & e2 & e' & _ & _ & I & O & _)
       | (e1 & e2 & _ & _ & O & _)]]]];
    try discriminate; injection O as ->.
  - right. exists e'. auto.
  - right. exists e'. auto.
  - left. exists e1, e2. reflexivity.
Qed.

(** ** Provider adapters *)

Lemma rstrip_slash_snoc (s : string) :
  rstrip_slash (s ++ "/") = rstrip_slash s.
Proof.
  induction s as [| c s IH]; [reflexivity |].
  cbn [append rstrip_slash]. rewrite IH. reflexivity.
Qed.

Lemma rstrip_slash_no_trailing_slash (s r : string) :
  rstrip_slash s <> r ++ "/".
Proof.
  revert r. induction s as [| c s IH]; intros r.
  - destruct r; discriminate.
  - cbn [rstrip_slash].
    destruct (rstrip_slash s) as [| d t] eqn:E.
    + destruct (Ascii.eqb_spec c "/"%char) as [-> | N].
      * destruct r; discriminate.
      * destruct r as [| c' [| c'' r]]; cbn; congruence.
    + destruct r as [| c' r]; cbn; [discriminate |].
      intros H. injection H as _ H. exact (IH r H).
Qed.

Lemma rstrip_slash_prefix (s : string) :
  exists slashes, s = rstrip_slash s ++ slashes.
Proof.
  induction s as [| c s [t IH]]; [exists EmptyString; reflexivity |].
  cbn [rstrip_slash].
  destruct (rstrip_slash s) as [| d r] eqn:E.
  - destruct (Ascii.eqb c "/"%char).
    + exists (String c s). reflexivity.
    + exists s. reflexivity.
  - exists t. cbn [append] in *. rewrite <- IH. reflexivity.
Qed.

(** X19. The Azure adapter does not care about slashes at the end of the
    configured endpoint: one more slash gives the same adapter, hence the
    same request URL, the endpoint it keeps never ends with a slash, and
    it is the configured one without its last characters. *)
Theorem azure_endpoint_without_trailing_slashes
    (endpoint api_key api_version : string) :
  AzureOpenAIProvider_init (endpoint ++ "/") api_key api_version
  = AzureOpenAIProvider_init endpoint api_key api_version
  /\ (forall r,
        az_endpoint (AzureOpenAIProvider_init endpoint api_key api_version)
        <> r ++ "/")
  /\ exists slashes,
       endpoint
       = az_endpoint (AzureOpenAIProvider_init endpoint api_key api_version)
         ++ slashes.
Proof.
  unfold AzureOpenAIProvider_init. cbn [az_endpoint].
  rewrite rstrip_slash_snoc.
  split; [reflexivity | split].
  - intros r. apply rstrip_slash_no_trailing_slash.
  - apply rstrip_slash_prefix.
Qed.

Section AdapterProperties.

Variable py_str : PyVal -> string.
Variable http_post : HttpRequest -> Outcome (Q * HttpResponse).
Variable invoke_model : string -> PyVal -> Outcome (Q * PyVal).

Local Abbreviation azure_generate :=
  (AzureOpenAIProvider_generate py_str http_post).
Local Abbreviation bedrock_generate :=
  (AwsBedrockProvider_generate py_str invoke_model).

(** The content of an Azure response is found exactly when the response
    is a dict whose "choices" is a list that starts with a dict whose
    "message" is a dict with a key "content"; the content is then passed
    on as it is, a null included. *)
Lemma azure_content_shape (data v : PyVal) :
  azure_content data = Some v
  <-> exists d rest d1 d2,
        data = PyDict d
        /\ PyObj.lookup d "choices" = Some (PyList (PyDict d1 :: rest))
        /\ PyObj.lookup d1 "message" = Some (PyDict d2)
        /\ PyObj.lookup d2 "content" = Some v.
Proof.
  unfold azure_content. split.
  - destruct data as [| | | | | | d]; try discriminate. cbn [PyObj.item].
    destruct (PyObj.lookup d "choices") as [choices |] eqn:C;
      [| discriminate].
    destruct choices as [| | | | [| c s] | [| choice rest] | ];
      cbn [PyObj.item0 PyObj.item]; try discriminate.
    destruct choice as [| | | | | | d1]; try discriminate.
    cbn [PyObj.item].
    destruct (PyObj.lookup d1 "message") as [message |] eqn:M;
      [| discriminate].
    destruct message as [| | | | | | d2]; try discriminate.
    intros H. exists d, rest, d1, d2. auto.
  - intros (d & rest & d1 & d2 & -> & C & M & V).
    cbn [PyObj.item]. rewrite C. cbn [PyObj.item0 PyObj.item]. rewrite M.
    exact V.
Qed.

(** X20. An error status of the Azure service is reported before the body is
    looked at: with a status of 400 or more the adapter raises the
    [RuntimeError] that holds the status and the body text, whether or not
    the body is JSON. *)
Theorem azure_error_status_raises (self : AzureOpenAIProvider)
    (c : GenerateCall) (seconds : Q) (resp : HttpResponse) :
  http_post (azure_request self c) = Return (seconds, resp) ->
  400 <= resp_status_code resp ->
  azure_generate self c
  = Raise (RuntimeError ("Azure OpenAI error "
                         ++ str_of_int (resp_status_code resp) ++ ": "
                         ++ resp_text resp)).
Proof.
  intros P S. unfold AzureOpenAIProvider_generate.
  rewrite P. cbn [and_then fst snd].
  destruct (Z.geb_spec (resp_status_code resp) 400); [reflexivity | lia].
Qed.

(** X21. The Azure adapter returns exactly when the exchange succeeds with a
    status below 400 and a JSON body of the chat-completion shape; the
    result then names the provider "azure" and the deployment asked for,
    and its text is the content of the first choice as it is, which need
    not be a string. *)
Theorem azure_returns_first_choice_content (self : AzureOpenAIProvider)
    (c : GenerateCall) (r : AdapterResult) :
  azure_generate self c = Return r
  <-> exists seconds resp d rest d1 d2,
        http_post (azure_request self c) = Return (seconds, resp)
        /\ resp_status_code resp < 400
        /\ resp_json resp = Return (PyDict d)
        /\ PyObj.lookup d "choices" = Some (PyList (PyDict d1 :: rest))
        /\ PyObj.lookup d1 "message" = Some (PyDict d2)
        /\ PyObj.lookup d2 "content" = Some (ar_text r)
        /\ ar_provider r = "azure"
        /\ ar_model r = gc_model_or_deployment c
        /\ ar_latency_ms r = latency_of seconds
        /\ ar_raw r = Some (PyDict d).
Proof.
  unfold AzureOpenAIProvider_generate. split.
  - destruct (http_post _) as [[seconds resp] | e]; [| discriminate].
    cbn [and_then fst snd].
    destruct (Z.geb_spec (resp_status_code resp) 400) as [G | L];
      [discriminate |].
    destruct (resp_json resp) as [data | e] eqn:J; [| discriminate].
    cbn [and_then].
    destruct (azure_content data) as [v |] eqn:A; [| discriminate].
    intros H. injection H as <-. cbn.
    apply azure_content_shape in A.
    destruct A as (d & rest & d1 & d2 & -> & A1 & A2 & A3).
    exists seconds, resp, d, rest, d1, d2. cbn. auto 12.
  - intros (seconds & resp & d & rest & d1 & d2 & P & S & J & C1 & C2 & C3
            & R1 & R2 & R3 & R4).
    rewrite P. cbn [and_then fst snd].
    destruct (Z.geb_spec (resp_status_code resp) 400) as [G | L]; [lia |].
    rewrite J. cbn [and_then].
    assert (A : azure_content (PyDict d) = Some (ar_text r)).
    { apply azure_content_shape. exists d, rest, d1, d2. auto. }
    rewrite A. cbn [PyObj.is_dict].
    destruct r as [p m t l w]. cbn in *. subst. reflexivity.
Qed.

Lemma bedrock_text_of_dict (d : list (string * PyVal)) :
  bedrock_text (PyDict d)
  = match
      match PyObj.lookup d "content" with
      | Some (PyList (first :: _)) => PyObj.get first "text" (PyStr EmptyString)
      | _ => Some (PyStr EmptyString)
      end
    with
    | None => None
    | Some text =>
        if PyObj.truthy text then Some text
        else Some match PyObj.lookup d "completion" with
                  | Some v => v
                  | None => PyStr EmptyString
                  end
    end.
Proof.
  unfold bedrock_text. cbn [PyObj.get].
  destruct (PyObj.lookup d "content") as [content |].
  - destruct content as [| [|] | n | x | s | [| first rest] | [| i items]];
      cbn [PyObj.truthy PyObj.is_list PyObj.item0 andb negb Py.not_str];
      try rewrite !andb_false_r;
      try (destruct (PyObj.lookup d "completion"); reflexivity).
    destruct (PyObj.get first "text" (PyStr EmptyString)) as [text |];
      [| reflexivity].
    destruct (PyObj.truthy text); cbn [negb]; [reflexivity |].
    destruct (PyObj.lookup d "completion"); reflexivity.
  - cbn [PyObj.truthy PyObj.is_list andb negb Py.not_str].
    destruct (PyObj.lookup d "completion"); reflexivity.
Qed.

(** X22. The Bedrock adapter never returns an empty or blank text: a result
    it returns names the provider "bedrock" and the model asked for, and
    its text is a string with a character that is no white space, so that
    its token estimate is at least 1. *)
Theorem bedrock_text_is_never_blank (c : GenerateCall) (r : AdapterResult) :
  bedrock_generate c = Return r ->
  ar_provider r = "bedrock"
  /\ ar_model r = gc_model_or_deployment c
  /\ exists s,
       ar_text r = PyStr s
       /\ PyStr.all_space s = false
       /\ s <> EmptyString
       /\ 1 <= est_tokens s.
Proof.
  unfold AwsBedrockProvider_generate.
  destruct (invoke_model _ _) as [[seconds data] | e]; [| discriminate].
  cbn [and_then fst snd].
  destruct (bedrock_text data) as [text |]; [| discriminate].
  destruct text as [| | | | s | |]; try discriminate.
  rewrite strip_empty_eqb.
  destruct (PyStr.all_space s) eqn:A; [discriminate |].
  intros H. injection H as <-. cbn.
  split; [reflexivity | split; [reflexivity |]].
  exists s. split; [reflexivity | split; [exact A |]].
  destruct s as [| ch s]; [discriminate |].
  split; [discriminate |].
  unfold est_tokens. cbn [Py.not_str]. lia.
Qed.

(** X23. Which text the Bedrock adapter takes: the "text" of the first item of
    "content" when it is a string that is not blank, whatever
    "completion" holds; and "completion" when "content" is missing or an
    empty list. *)
Theorem bedrock_prefers_content_over_completion (c : GenerateCall)
    (seconds : Q) (d : list (string * PyVal)) (s : string) :
  invoke_model (gc_model_or_deployment c) (bedrock_body c)
  = Return (seconds, PyDict d) ->
  PyStr.all_space s = false ->
  (forall d1 rest,
     PyObj.lookup d "content" = Some (PyList (PyDict d1 :: rest)) ->
     PyObj.lookup d1 "text" = Some (PyStr s) ->
     exists r, bedrock_generate c = Return r /\ ar_text r = PyStr s)
  /\ (PyObj.lookup d "content" = None
      \/ PyObj.lookup d "content" = Some (PyList []) ->
      PyObj.lookup d "completion" = Some (PyStr s) ->
      exists r, bedrock_generate c = Return r /\ ar_text r = PyStr s).
Proof.
  intros X A.
  assert (N : s <> EmptyString) by (intros ->; discriminate).
  assert (T : PyObj.truthy (PyStr s) = true).
  { destruct s; [congruence | reflexivity]. }
  unfold AwsBedrockProvider_generate. rewrite X. cbn [and_then fst snd].
  rewrite bedrock_text_of_dict.
  split.
  - intros d1 rest C1 C2. rewrite C1. cbn [PyObj.get]. rewrite C2, T.
    rewrite strip_empty_eqb, A. eexists. split; reflexivity.
  - intros C1 C2.
    assert (E : match PyObj.lookup d "content" with
                | Some (PyList (first :: _)) =>
                    PyObj.get first "text" (PyStr EmptyString)
                | _ => Some (PyStr EmptyString)
                end = Some (PyStr EmptyString)).
    { destruct C1 as [-> | ->]; reflexivity. }
    rewrite E, C2. cbn [PyObj.truthy Py.not_str negb].
    rewrite strip_empty_eqb, A. eexists. split; reflexivity.
Qed.

(** X24. What the Bedrock adapter refuses: a response that is no dict, or
    whose first content item is no dict, is an unexpected format; a dict
    with neither a content text nor a completion is an empty completion.
    Both are [RuntimeError]s that hold the response. *)
Theorem bedrock_rejects_malformed_and_empty (c : GenerateCall) (seconds : Q)
    (data : PyVal) :
  invoke_model (gc_model_or_deployment c) (bedrock_body c)
  = Return (seconds, data) ->
  (PyObj.is_dict data = false ->
   bedrock_generate c
   = Raise (RuntimeError ("Unexpected Bedrock response format: "
                          ++ py_str data)))
  /\ (forall d first rest,
        data = PyDict d ->
        PyObj.lookup d "content" = Some (PyList (first :: rest)) ->
        PyObj.is_dict first = false ->
        bedrock_generate c
        = Raise (RuntimeError ("Unexpected Bedrock response format: "
                               ++ py_str data)))
  /\ (forall d,
        data = PyDict d ->
        PyObj.lookup d "content" = None ->
        PyObj.lookup d "completion" = None ->
        bedrock_generate c
        = Raise (RuntimeError ("Empty Bedrock completion. Raw: "
                               ++ py_str data))).
Proof.
  intros X. unfold AwsBedrockProvider_generate. rewrite X.
  cbn [and_then fst snd]. split; [| split].
  - intros D. destruct data; try discriminate; reflexivity.
  - intros d first rest -> C F. rewrite bedrock_text_of_dict, C.
    destruct first; try discriminate; reflexivity.
  - intros d -> C1 C2. rewrite bedrock_text_of_dict, C1, C2. reflexivity.
Qed.

End AdapterProperties.

(** ** Concrete cases of the further properties *)

Lemma unrecognised_hint_is_ignored_witness :
  choose_models (Sample.request "hello" "high_quality" (Some "vertex"))
    Sample.azure_cfg Sample.bedrock_cfg
  = (("bedrock", "anthropic.claude-3-5-sonnet"), ("azure", "gpt-4o")).
Proof.
  exact (proj1 (unrecognised_hint_is_ignored Sample.azure_cfg
                  Sample.bedrock_cfg
                  (Sample.request "hello" "high_quality" (Some "vertex"))
                  "vertex" eq_refl ltac:(discriminate) ltac:(discriminate))).
Defined.

Lemma disabled_logging_never_touches_database_witness :
  enable_request_logging Sample.quiet_app_config = false
  /\ snd (Sample.quiet_run Sample.azure_down Sample.bedrock_down
            [Some Sample.disk_error])
     = Sample.world [Some Sample.disk_error].
Proof.
  split; [reflexivity |].
  exact (proj1 (disabled_logging_never_touches_database
                  Sample.quiet_app_config Sample.azure_cfg Sample.bedrock_cfg
                  Sample.hello Sample.azure_down Sample.bedrock_down
                  "7d9f2c1e" (Sample.world [Some Sample.disk_error])
                  (Sample.world []) eq_refl)).
Defined.

Lemma returned_result_is_coherent_witness :
  exists r w' pr,
    Sample.run Sample.azure_up Sample.bedrock_down [] = (Return r, w')
    /\ attempts r = [pr]
    /\ chosen_provider r = pr_provider pr
    /\ (pr_provider pr, pr_model pr) = ("azure", "gpt-4o-mini").
Proof.
  eexists. eexists.
  assert (H : Sample.run Sample.azure_up Sample.bedrock_down []
              = (Return _, _)) by (vm_compute; reflexivity).
  destruct (returned_result_is_coherent default_app_config Sample.azure_cfg
              Sample.bedrock_cfg Sample.hello Sample.azure_up
              Sample.bedrock_down "7d9f2c1e" (Sample.world []) _ _ H)
    as (pr & A & P & _ & _ & _ & _ & S).
  exists pr. split; [exact H | split; [exact A | split; [exact P |]]].
  rewrite S. reflexivity.
Defined.


Lemma last_usage_row_matches_result_witness :
  enable_request_logging default_app_config = true
  /\ exists r w' before row,
       Sample.run Sample.azure_up Sample.bedrock_down [] = (Return r, w')
       /\ usage_logs w' = (before ++ [row])%list
       /\ row_provider row = chosen_provider r
       /\ row_latency_ms row = latency_ms r.
Proof.
  split; [reflexivity |]. eexists. eexists.
  assert (H : Sample.run Sample.azure_up Sample.bedrock_down []
              = (Return _, _)) by (vm_compute; reflexivity).
  destruct (last_usage_row_matches_result default_app_config Sample.azure_cfg
              Sample.bedrock_cfg Sample.hello Sample.azure_up
              Sample.bedrock_down "7d9f2c1e" (Sample.world []) _ _ eq_refl H)
    as (before & row & pr & U & _ & _ & _ & P & _ & L & _).
  exists before, row.
  split; [exact H | split; [exact U | split; [exact P | exact L]]].
Defined.

Lemma secondary_provider_idle_when_primary_succeeds_witness :
  succeeded
    (primary_attempt default_app_config Sample.azure_cfg Sample.bedrock_cfg
       Sample.hello Sample.azure_up Sample.bedrock_up "7d9f2c1e")
    (Sample.world [])
  /\ fst (primary_selection Sample.azure_cfg Sample.bedrock_cfg Sample.hello)
     <> "azure"
  /\ Sample.run Sample.azure_down Sample.bedrock_up []
     = Sample.run Sample.azure_up Sample.bedrock_up [].
Proof.
  assert (S : succeeded
                (primary_attempt default_app_config Sample.azure_cfg
                   Sample.bedrock_cfg Sample.hello Sample.azure_up
                   Sample.bedrock_up "7d9f2c1e")
                (Sample.world [])).
  { eexists. eexists. vm_compute. reflexivity. }
  assert (N : fst (primary_selection Sample.azure_cfg Sample.bedrock_cfg
                     Sample.hello) <> "azure") by discriminate.
  split; [exact S | split; [exact N |]].
  exact (proj2 (secondary_provider_idle_when_primary_succeeds
                  default_app_config Sample.azure_cfg Sample.bedrock_cfg
                  Sample.hello "7d9f2c1e" Sample.azure_up Sample.bedrock_up
                  Sample.azure_down (Sample.world []) S) N).
Defined.

Lemma hinted_provider_first_other_as_fallback_witness :
  let req := Sample.request "hello" "low_cost" (Some "azure") in
  exists r w',
    run_generation default_app_config Sample.azure_cfg Sample.bedrock_cfg req
      Sample.azure_up Sample.bedrock_up "7d9f2c1e" (Sample.world [])
    = (Return r, w')
    /\ fallback_used r = false
    /\ chosen_provider r = "azure".
Proof.
  cbv zeta. eexists. eexists.
  assert (H : run_generation default_app_config Sample.azure_cfg
                Sample.bedrock_cfg
                (Sample.request "hello" "low_cost" (Some "azure"))
                Sample.azure_up Sample.bedrock_up "7d9f2c1e" (Sample.world [])
              = (Return _, _)) by (vm_compute; reflexivity).
  split; [exact H | split; [reflexivity |]].
  exact (proj1 (proj2 (hinted_provider_first_other_as_fallback
                         default_app_config Sample.azure_cfg
                         Sample.bedrock_cfg
                         (Sample.request "hello" "low_cost" (Some "azure"))
                         "7d9f2c1e" Sample.azure_up Sample.bedrock_up "azure"
                         (Sample.world []) _ _ eq_refl eq_refl H)) eq_refl).
Defined.

Lemma selections_keep_provider_with_its_model_witness :
  routing_table "fastest" Sample.azure_cfg Sample.bedrock_cfg
  = (("azure", "gpt-35-turbo"), ("bedrock", "anthropic.claude-instant")).
Proof.
  exact (proj2 (proj2 (proj2 (selections_keep_provider_with_its_model
                                Sample.azure_cfg Sample.bedrock_cfg
                                (Sample.request "hello" "fastest" None))
                         ltac:(discriminate) ltac:(discriminate)))).
Defined.

Lemma unknown_task_gets_chat_prompt_witness :
  ~ In "translate" known_tasks
  /\ build_system_prompt "translate" = build_system_prompt "chat".
Proof.
  assert (N : ~ In "translate" known_tasks).
  { cbn. intros [H | [H | [H | [H | [H | [H | []]]]]]]; discriminate. }
  split; [exact N |].
  exact (proj1 (unknown_task_gets_chat_prompt "translate") N).
Defined.

Lemma est_tokens_bounds_witness :
  est_tokens "seven.." = 1
  /\ 4 * est_tokens "a text of thirty-one characters"
     <= Py.len "a text of thirty-one characters"
     < 4 * est_tokens "a text of thirty-one characters" + 4.
Proof.
  split.
  - exact (proj1 (proj2 (est_tokens_bounds "seven.."))
             ltac:(discriminate) ltac:(vm_compute; reflexivity)).
  - exact (proj2 (proj2 (est_tokens_bounds "a text of thirty-one characters"))
             ltac:(vm_compute; discriminate)).
Defined.


Lemma get_env_raises_iff_required_and_blank_witness :
  In ("AZURE_OPENAI_API_KEY", "   ") SampleEnv.blank_key
  /\ _get_env SampleEnv.blank_key "AZURE_OPENAI_API_KEY" (Some "fallback") true
     = Raise (ValueError
                "Missing required environment variable: AZURE_OPENAI_API_KEY")
  /\ exists v,
       os_getenv SampleEnv.blank_key "AZURE_OPENAI_API_KEY" (Some "fallback")
       = Some v.
Proof.
  assert (I : In ("AZURE_OPENAI_API_KEY", "   ") SampleEnv.blank_key).
  { right. left. reflexivity. }
  destruct (get_env_raises_iff_required_and_blank SampleEnv.blank_key
              "AZURE_OPENAI_API_KEY" (Some "fallback")) as (R & S & _).
  split; [exact I | split].
  - rewrite R. reflexivity.
  - destruct (S _ I) as (v & E & _). exists v. exact E.
Defined.

Lemma load_config_reports_first_missing_variable_witness :
  Forall (fun nd => exists q,
            SampleEnv.py_float
              (env_default SampleEnv.blank_key (fst nd) (snd nd)) = Return q)
    float_variables
  /\ load_config SampleEnv.py_float SampleEnv.blank_key
     = Raise (ValueError
                "Missing required environment variable: AZURE_OPENAI_API_KEY").
Proof.
  assert (F : Forall (fun nd => exists q,
                        SampleEnv.py_float
                          (env_default SampleEnv.blank_key (fst nd) (snd nd))
                        = Return q)
                float_variables).
  { repeat (apply Forall_cons; [eexists; reflexivity |]). apply Forall_nil. }
  split; [exact F |].
  exact (load_config_reports_first_missing_variable SampleEnv.py_float
           SampleEnv.blank_key F).
Defined.

Lemma load_config_parses_numbers_first_witness :
  find (fun nd =>
          raises (SampleEnv.py_float
                    (env_default SampleEnv.bad_timeout (fst nd) (snd nd))))
    float_variables = Some ("HARD_TIMEOUT_S", "20")
  /\ exists e,
       load_config SampleEnv.py_float SampleEnv.bad_timeout = Raise e
       /\ exc_str e = "could not convert string to float: soon".
Proof.
  assert (F : find (fun nd =>
                      raises (SampleEnv.py_float
                                (env_default SampleEnv.bad_timeout (fst nd)
                                   (snd nd))))
                float_variables = Some ("HARD_TIMEOUT_S", "20"))
    by reflexivity.
  split; [exact F |].
  destruct (load_config_parses_numbers_first SampleEnv.py_float
              SampleEnv.bad_timeout "HARD_TIMEOUT_S" "20" F) as (e & P & L).
  exists e. split; [exact L |].
  assert (E : Raise e
              = SampleEnv.py_float
                  (env_default SampleEnv.bad_timeout "HARD_TIMEOUT_S" "20"))
    by (symmetry; exact P).
  vm_compute in E. injection E as ->. reflexivity.
Defined.

Lemma load_config_defaults_witness :
  exists app azure bedrock,
    load_config SampleEnv.py_float SampleEnv.required_only
    = Return (app, azure, bedrock)
    /\ app = default_app_config
    /\ api_version azure = "2024-02-15-preview"
    /\ region bedrock = "eu-west-2".
Proof.
  eexists. eexists. eexists.
  assert (H : load_config SampleEnv.py_float SampleEnv.required_only
              = Return (_, _, _)) by (vm_compute; reflexivity).
  split; [exact H |].
  destruct (load_config_defaults SampleEnv.py_float SampleEnv.required_only
              _ _ _ eq_refl eq_refl eq_refl eq_refl eq_refl
              ltac:(repeat (apply Forall_cons; [reflexivity |]);
                    apply Forall_nil)
              H) as (A & V & _).
  split; [exact A | split; [exact V | reflexivity]].
Defined.

Lemma azure_error_status_raises_witness :
  400 <= resp_status_code SampleEnv.throttled
  /\ AzureOpenAIProvider_generate SampleEnv.py_str
       (SampleEnv.answering_http SampleEnv.throttled) SampleEnv.adapter
       SampleEnv.a_call
     = Raise (RuntimeError "Azure OpenAI error 429: Too Many Requests").
Proof.
  assert (S : 400 <= resp_status_code SampleEnv.throttled)
    by (vm_compute; discriminate).
  split; [exact S |].
  exact (azure_error_status_raises SampleEnv.py_str
           (SampleEnv.answering_http SampleEnv.throttled) SampleEnv.adapter
           SampleEnv.a_call 0.25%Q SampleEnv.throttled eq_refl S).
Defined.

Lemma azure_returns_first_choice_content_witness :
  exists r,
    AzureOpenAIProvider_generate SampleEnv.py_str
      (SampleEnv.answering_http SampleEnv.completion_ok) SampleEnv.adapter
      SampleEnv.a_call
    = Return r
    /\ ar_text r = PyNone
    /\ ar_provider r = "azure"
    /\ ar_latency_ms r = 250.
Proof.
  eexists.
  assert (H : AzureOpenAIProvider_generate SampleEnv.py_str
                (SampleEnv.answering_http SampleEnv.completion_ok)
                SampleEnv.adapter SampleEnv.a_call
              = Return _) by (vm_compute; reflexivity).
  split; [exact H | split; [reflexivity |]].
  destruct (proj1 (azure_returns_first_choice_content SampleEnv.py_str
                     (SampleEnv.answering_http SampleEnv.completion_ok)
                     SampleEnv.adapter SampleEnv.a_call _) H)
    as (seconds & resp & d & rest & d1 & d2 & _ & _ & _ & _ & _ & _ & P & _).
  split; [exact P | reflexivity].
Defined.

Lemma bedrock_text_is_never_blank_witness :
  exists r s,
    AwsBedrockProvider_generate SampleEnv.py_str
      (SampleEnv.answering_bedrock SampleEnv.claude_response) SampleEnv.a_call
    = Return r
    /\ ar_text r = PyStr s
    /\ 1 <= est_tokens s.
Proof.
  eexists.
  assert (H : AwsBedrockProvider_generate SampleEnv.py_str
                (SampleEnv.answering_bedrock SampleEnv.claude_response)
                SampleEnv.a_call
              = Return _) by (vm_compute; reflexivity).
  destruct (bedrock_text_is_never_blank SampleEnv.py_str
              (SampleEnv.answering_bedrock SampleEnv.claude_response)
              SampleEnv.a_call _ H) as (_ & _ & s & T & _ & _ & E).
  exists s. split; [exact H | split; [exact T | exact E]].
Defined.

Lemma bedrock_prefers_content_over_completion_witness :
  PyStr.all_space "hi there" = false
  /\ exists r,
       AwsBedrockProvider_generate SampleEnv.py_str
         (SampleEnv.answering_bedrock SampleEnv.claude_response)
         SampleEnv.a_call
       = Return r
       /\ ar_text r = PyStr "hi there".
Proof.
  split; [reflexivity |].
  exact (proj1 (bedrock_prefers_content_over_completion SampleEnv.py_str
                  (SampleEnv.answering_bedrock SampleEnv.claude_response)
                  SampleEnv.a_call 0.25%Q _ "hi there" eq_refl eq_refl)
           _ _ eq_refl eq_refl).
Defined.

Lemma bedrock_rejects_malformed_and_empty_witness :
  PyObj.is_dict (PyList [PyStr "hi"]) = false
  /\ AwsBedrockProvider_generate SampleEnv.py_str
       (SampleEnv.answering_bedrock (PyList [PyStr "hi"])) SampleEnv.a_call
     = Raise (RuntimeError "Unexpected Bedrock response format: <response>").
Proof.
  split; [reflexivity |].
  exact (proj1 (bedrock_rejects_malformed_and_empty SampleEnv.py_str
                  (SampleEnv.answering_bedrock (PyList [PyStr "hi"]))
                  SampleEnv.a_call 0.25%Q (PyList [PyStr "hi"]) eq_refl)
           eq_refl).
Defined.
